(** * prepare_dashboard_data.py: the reshape-and-aggregate pipeline

    A shallow embedding of [src/prepare_dashboard_data.py].  The master
    table is a list of rows; a row maps column names to cells.  Cells of
    the columns the script reads through [str] and [pd.notna] are text or
    empty.  Cells of the four indicator columns are binary64 numbers, NaN
    when empty (the type of a numeric column that has an empty cell or a
    fraction); indicator cells that hold text or 64-bit integers are not
    covered.  Strings are ASCII strings, so the library functions on
    characters (digits, whitespace) are the ASCII ones. *)

From Stdlib Require Import ZArith List Ascii String DecimalString Bool Lia Sorted.
From Stdlib Require Import PrimFloat SpecFloat FloatOps.
From stdpp Require Import gmap strings.

Set Warnings "-inexact-float".
Local Open Scope string_scope.

(** ** Values and the library functions on strings *)

(** What [row.get(col)] returns for a text column: [None] when the table
    has no such column, NaN for an empty cell, the text otherwise. *)
Inductive value : Type :=
| VNone
| VNaN
| VStr (s : string).

(** [pd.notna] *)
Definition notna (v : value) : bool :=
  match v with
  | VStr _ => true
  | VNone | VNaN => false
  end.

(** [str] *)
Definition str (v : value) : string :=
  match v with
  | VNone => "None"
  | VNaN => "nan"
  | VStr s => s
  end.

Definition is_digit (c : ascii) : bool :=
  let n := nat_of_ascii c in (48 <=? n)%nat && (n <=? 57)%nat.

(** [str.isspace] on one character. *)
Definition is_space (c : ascii) : bool :=
  let n := nat_of_ascii c in
  ((9 <=? n)%nat && (n <=? 13)%nat) || ((28 <=? n)%nat && (n <=? 32)%nat).

(** [re.sub(r'[^0-9]', '', s)] *)
Fixpoint re_sub_non_digits (s : string) : string :=
  match s with
  | EmptyString => EmptyString
  | String c s' =>
      if is_digit c then String c (re_sub_non_digits s')
      else re_sub_non_digits s'
  end.

(** [s.lstrip()] *)
Fixpoint lstrip (s : string) : string :=
  match s with
  | EmptyString => EmptyString
  | String c s' => if is_space c then lstrip s' else s
  end.

(** [s.rstrip()] *)
Fixpoint rstrip (s : string) : string :=
  match s with
  | EmptyString => EmptyString
  | String c s' =>
      match rstrip s' with
      | EmptyString => if is_space c then EmptyString else String c EmptyString
      | r => String c r
      end
  end.

(** [s.strip()] *)
Definition strip (s : string) : string := rstrip (lstrip s).

(** [s.split(' ')]: the pieces between single spaces, empty pieces kept. *)
Fixpoint split_space (s : string) : list string :=
  match s with
  | EmptyString => [EmptyString]
  | String c s' =>
      if Ascii.eqb c " " then EmptyString :: split_space s'
      else match split_space s' with
           | [] => [String c EmptyString]
           | t :: ts => String c t :: ts
           end
  end.

(** ** standardize_cnic *)

Definition standardize_cnic (cnic_str : value) : string :=
  if notna cnic_str then re_sub_non_digits (str cnic_str) else "".

(** Two strings that differ only in non-digit characters: one is obtained
    from the other by inserting and deleting characters that are not
    decimal digits. *)
Inductive same_digits : string -> string -> Prop :=
| sd_nil : same_digits "" ""
| sd_keep c s t : same_digits s t -> same_digits (String c s) (String c t)
| sd_skip_l c s t : is_digit c = false -> same_digits s t -> same_digits (String c s) t
| sd_skip_r c s t : is_digit c = false -> same_digits s t -> same_digits s (String c t).

(** ** Exceptions *)

Inductive exn : Type :=
| ValueError
| IndexError
| AttributeError
| KeyError
| OtherError.

Definition exn_eqb (a b : exn) : bool :=
  match a, b with
  | ValueError, ValueError | IndexError, IndexError
  | AttributeError, AttributeError | KeyError, KeyError
  | OtherError, OtherError => true
  | _, _ => false
  end.

(** The outcome of running a block of statements. *)
Inductive result (A : Type) : Type :=
| Ok (a : A)
| Raise (e : exn).
Arguments Ok {A} a.
Arguments Raise {A} e.

#[global] Instance result_bind : MBind result :=
  fun A B k c => match c with Ok a => k a | Raise e => Raise e end.

#[global] Instance result_ret : MRet result := fun A a => Ok a.

(** [try: body  except (caught): handler] *)
Definition try_except {A : Type} (body : result A) (caught : list exn)
    (handler : A) : result A :=
  match body with
  | Ok a => Ok a
  | Raise e => if existsb (exn_eqb e) caught then Ok handler else Raise e
  end.

(** ** Binary64 numbers: conversions, [float(s)] and the two [round(x, n)] *)

(** The binary64 number nearest to [m * 10^e] (ties to even), with the
    sign [neg]; [m] is not negative. *)
Definition float_of_decimal (neg : bool) (m e : Z) : float :=
  match m with
  | Zpos p =>
      if (0 <=? e)%Z then
        SF2Prim (binary_normalize prec emax
                   ((if neg then Zneg p else Zpos p) * 10 ^ e)%Z 0%Z false)
      else
        SF2Prim (SFdiv prec emax (S754_finite neg p 0%Z)
                   (S754_finite false (Z.to_pos (10 ^ (- e))%Z) 0%Z))
  | _ => if neg then neg_zero else zero
  end.

(** [float(n)] for an integer [n]. *)
Definition float_of_Z (n : Z) : float :=
  float_of_decimal (n <? 0)%Z (Z.abs n) 0%Z.

Definition digit_val (c : ascii) : Z := (Z.of_nat (nat_of_ascii c) - 48)%Z.

(** The rest of a [digitpart] after its first digit: digits, each
    optionally preceded by one underscore.  [acc] is the number read so
    far and [n] the count of its digits. *)
Fixpoint digitpart_rest (s : string) (acc : Z) (n : Z) : Z * Z * string :=
  match s with
  | String c s' =>
      if is_digit c then digitpart_rest s' (10 * acc + digit_val c)%Z (n + 1)%Z
      else if Ascii.eqb c "_" then
        match s' with
        | String d s'' =>
            if is_digit d
            then digitpart_rest s'' (10 * acc + digit_val d)%Z (n + 1)%Z
            else (acc, n, s)
        | EmptyString => (acc, n, s)
        end
      else (acc, n, s)
  | EmptyString => (acc, n, s)
  end.

Definition digitpart (s : string) (acc : Z) : option (Z * Z * string) :=
  match s with
  | String c s' =>
      if is_digit c then Some (digitpart_rest s' (10 * acc + digit_val c)%Z 1%Z)
      else None
  | EmptyString => None
  end.

(** The optional exponent and the end of the literal. *)
Definition float_exponent (m e : Z) (s : string) : option (Z * Z) :=
  match s with
  | EmptyString => Some (m, e)
  | String c s' =>
      if Ascii.eqb c "e" || Ascii.eqb c "E" then
        let '(neg, s'') :=
          match s' with
          | String "-" t => (true, t)
          | String "+" t => (false, t)
          | _ => (false, s')
          end in
        match digitpart s'' 0%Z with
        | Some (x, _, EmptyString) => Some (m, e + (if neg then - x else x))%Z
        | _ => None
        end
      else None
  end.

(** [floatnumber]: the decimal mantissa and the power of ten. *)
Definition floatnumber (s : string) : option (Z * Z) :=
  match digitpart s 0%Z with
  | Some (m, _, String "." r) =>
      match digitpart r m with
      | Some (m', k, r') => float_exponent m' (- k)%Z r'
      | None => float_exponent m 0%Z r
      end
  | Some (m, _, r) => float_exponent m 0%Z r
  | None =>
      match s with
      | String "." r =>
          match digitpart r 0%Z with
          | Some (m', k, r') => float_exponent m' (- k)%Z r'
          | None => None
          end
      | _ => None
      end
  end.

Definition lower (c : ascii) : ascii :=
  let n := nat_of_ascii c in
  if (65 <=? n)%nat && (n <=? 90)%nat then ascii_of_nat (n + 32) else c.

Fixpoint lowercase (s : string) : string :=
  match s with
  | EmptyString => EmptyString
  | String c s' => String (lower c) (lowercase s')
  end.

(** The whitespace [float] skips around an ASCII literal: the characters
    9 to 13 and the space (the separators 28 to 31, which [str.strip]
    drops, are not among them). *)
Definition is_float_space (c : ascii) : bool :=
  let n := nat_of_ascii c in
  ((9 <=? n)%nat && (n <=? 13)%nat) || (n =? 32)%nat.

Fixpoint float_lstrip (s : string) : string :=
  match s with
  | EmptyString => EmptyString
  | String c s' => if is_float_space c then float_lstrip s' else s
  end.

Fixpoint float_rstrip (s : string) : string :=
  match s with
  | EmptyString => EmptyString
  | String c s' =>
      match float_rstrip s' with
      | EmptyString => if is_float_space c then EmptyString else String c EmptyString
      | r => String c r
      end
  end.

(** [float(s)] for a string [s]: surrounding whitespace is dropped, then a
    sign and a decimal literal, an infinity or a nan; [ValueError] on
    anything else. *)
Definition py_float (s : string) : result float :=
  let t := float_rstrip (float_lstrip s) in
  let '(neg, u) :=
    match t with
    | String "-" u => (true, u)
    | String "+" u => (false, u)
    | _ => (false, t)
    end in
  let l := lowercase u in
  if String.eqb l "inf" || String.eqb l "infinity"
  then Ok (if neg then neg_infinity else infinity)
  else if String.eqb l "nan" then Ok nan
  else match floatnumber u with
       | Some (m, e) => Ok (float_of_decimal neg m e)
       | None => Raise ValueError
       end.

(** [round(x, ndigits)] for a binary64 [x] and [0 <= ndigits]: the exact
    value of [x] is rounded to [ndigits] decimals, ties to even, and the
    decimal obtained is converted back. *)
Definition round (x : float) (ndigits : Z) : float :=
  match Prim2SF x with
  | S754_finite s m e =>
      if (0 <=? e)%Z then x
      else
        let num := (Zpos m * 10 ^ ndigits)%Z in
        let den := (2 ^ (- e))%Z in
        let q := (num / den)%Z in
        let r := (num mod den)%Z in
        let n :=
          match (2 * r ?= den)%Z with
          | Lt => q
          | Gt => (q + 1)%Z
          | Eq => if Z.even q then q else (q + 1)%Z
          end in
        float_of_decimal s n (- ndigits)%Z
  | _ => x
  end.

(** [rint]: the nearest integer, ties to even. *)
Definition rint (x : float) : float :=
  match Prim2SF x with
  | S754_finite s m e =>
      if (0 <=? e)%Z then x
      else
        let den := (2 ^ (- e))%Z in
        let q := (Zpos m / den)%Z in
        let r := (Zpos m mod den)%Z in
        let n :=
          match (2 * r ?= den)%Z with
          | Lt => q
          | Gt => (q + 1)%Z
          | Eq => if Z.even q then q else (q + 1)%Z
          end in
        float_of_decimal s n 0%Z
  | _ => x
  end.

(** [round(x, decimals)] for a [numpy.float64] [x] and [0 <= decimals]:
    the scalar is scaled by the power of ten, rounded to an integer and
    scaled back, each step in binary64. *)
Definition float64_round (x : float) (decimals : Z) : float :=
  let scale := float_of_Z (10 ^ decimals) in
  (rint (x * scale) / scale)%float.

(** ** Rows, dictionaries and tables *)

(** A row of a table, also the dictionary built for one beneficiary: the
    cells of the text columns and the cells of the numeric (indicator)
    columns, by column name.  A name that is in neither map is a column
    the table does not have. *)
Record series : Type := Series {
  text : gmap string value;
  num : gmap string float
}.

Record DataFrame : Type := Frame {
  columns : list string;
  rows : list series
}.

(** [row.get(col)] on a text column. *)
Definition get (row : series) (col : string) : value :=
  default VNone (text row !! col).

(** [row.get(col, d)] on a numeric column. *)
Definition get_num (row : series) (col : string) (d : float) : float :=
  default d (num row !! col).

(** [d[key] = v] *)
Definition setitem (d : series) (key : string) (v : value) : series :=
  {| text := <[key := v]> (text d); num := num d |}.

(** [df[col]]: [KeyError] when the table has no such column. *)
Definition getitem (df : DataFrame) (col : string) : result (list value) :=
  if existsb (String.eqb col) (columns df)
  then Ok (map (fun r => get r col) (rows df))
  else Raise KeyError.

(** [v == s] for a cell [v] and a string [s]. *)
Definition value_eqb (v : value) (s : string) : bool :=
  match v with
  | VStr t => String.eqb t s
  | VNone | VNaN => false
  end.

(** [df[df['main_menu'] == menu].copy()] *)
Definition select_menu (df : DataFrame) (menu : string) : result DataFrame :=
  _ ← getitem df "main_menu";
  Ok {| columns := columns df;
        rows := List.filter (fun r => value_eqb (get r "main_menu") menu) (rows df) |}.

(** [f'{prefix}_{i}'] *)
Definition slot_col (prefix : string) (i : nat) : string :=
  prefix +:+ "_" +:+ NilZero.string_of_uint (Nat.to_uint i).

(** ** The attendance index (lines 33-40) *)

(** [{standardize_cnic(c) for c in str(beneficiaries_present).split(' ') if c.strip()}] *)
Definition cnic_list (beneficiaries_present : value) : gset string :=
  list_to_set
    (map (fun c => standardize_cnic (VStr c))
       (List.filter (fun c => negb (String.eqb (strip c) ""))
          (split_space (str beneficiaries_present)))).

(** One turn of the loop over the day2 rows. *)
Definition attendance_step (day2_attendance : gmap string (gset string))
    (row : series) : gmap string (gset string) :=
  let day2_session_id := get row "day2_session_select" in
  let beneficiaries_present := get row "beneficiaries_present" in
  if notna day2_session_id && notna beneficiaries_present then
    <[str day2_session_id := cnic_list beneficiaries_present]> day2_attendance
  else day2_attendance.

Definition day2_attendance (df_day2 : DataFrame) : gmap string (gset string) :=
  fold_left attendance_step (rows df_day2) ∅.

(** ** The reshape step (lines 42-75) *)

Definition beneficiary_specific_prefixes : list string :=
  ["beneficiary_name"; "beneficiary_cnic"; "age"; "occupation"].

Definition session_data (row : series) : series :=
  {| text :=
       <["SubmissionDate" := get row "SubmissionDate"]>
       (<["start" := get row "start"]>
       (<["end" := get row "end"]>
       (<["province_select" := get row "province_select"]>
       (<["district_select" := get row "district_select"]>
       (<["lead_trainer_name" := get row "lead_trainer_name"]>
       (<["session_id" := get row "session_id"]>
       (<["training_location" := get row "training_location"]> ∅)))))));
     num :=
       <["q_read_write" := get_num row "q_read_write" 0]>
       (<["q_recognize_currency" := get_num row "q_recognize_currency" 0]>
       (<["q_simple_math" := get_num row "q_simple_math" 0]>
       (<["q_handbooks_distributed" := get_num row "q_handbooks_distributed" 0]> ∅))) |}.

(** The dictionary appended for slot [i] of a row (lines 66-71). *)
Definition beneficiary_data (row : series) (i : nat) : series :=
  let cnic_col := slot_col "beneficiary_cnic" i in
  let d := session_data row in
  let d := setitem d "beneficiary_cnic" (VStr (standardize_cnic (get row cnic_col))) in
  fold_left (fun d prefix => setitem d prefix (get row (slot_col prefix i)))
    beneficiary_specific_prefixes d.

(** [cnic_col in df_day1.columns and pd.notna(row.get(cnic_col))] *)
Definition slot_present (df_day1 : DataFrame) (row : series) (i : nat) : bool :=
  let cnic_col := slot_col "beneficiary_cnic" i in
  existsb (String.eqb cnic_col) (columns df_day1) && notna (get row cnic_col).

(** The dictionaries one registration row appends, [for i in range(1, 36)]. *)
Definition reshape_row (df_day1 : DataFrame) (row : series) : list series :=
  flat_map (fun i => if slot_present df_day1 row i then [beneficiary_data row i] else [])
    (seq 1 35).

Definition long_format_list (df_day1 : DataFrame) : list series :=
  flat_map (reshape_row df_day1) (rows df_day1).

(** [pd.DataFrame(long_format_list)]: the columns are the keys of the
    dictionaries, and there is none when the list is empty. *)
Definition session_columns : list string :=
  ["SubmissionDate"; "start"; "end"; "province_select"; "district_select";
   "lead_trainer_name"; "session_id"; "training_location"; "q_read_write";
   "q_recognize_currency"; "q_simple_math"; "q_handbooks_distributed";
   "beneficiary_cnic"; "beneficiary_name"; "age"; "occupation"].

Definition df_final_database (long_format : list series) : DataFrame :=
  {| columns := match long_format with [] => [] | _ => session_columns end;
     rows := long_format |}.

(** ** Grouping by session (line 79) *)

(** The key of a record, when it has one: [groupby] drops the records
    whose key is missing. *)
Definition group_key (r : series) : option string :=
  match get r "session_id" with
  | VStr k => Some k
  | VNone | VNaN => None
  end.

(** Insertion of a key into an ascending list without repetitions. *)
Fixpoint insert_key (k : string) (l : list string) : list string :=
  match l with
  | [] => [k]
  | x :: l' =>
      match String.compare k x with
      | Lt => k :: l
      | Eq => l
      | Gt => x :: insert_key k l'
      end
  end.

Definition group_keys (l : list series) : list string :=
  fold_right (fun r acc => match group_key r with
                           | Some k => insert_key k acc
                           | None => acc
                           end) [] l.

(** [df.groupby('session_id')]: the groups in ascending order of their
    key, each with its records in the order of the table. *)
Definition groupby_session (df : DataFrame) : result (list (string * list series)) :=
  _ ← getitem df "session_id";
  Ok (map (fun k => (k, List.filter (fun r => value_eqb (get r "session_id") k) (rows df)))
        (group_keys (rows df))).

(** ** The per-session metrics (lines 82-107) *)

(** [coords[i]] *)
Definition index {A : Type} (l : list A) (i : nat) : result A :=
  match nth_error l i with
  | Some a => Ok a
  | None => Raise IndexError
  end.

(** Lines 84-91: the coordinates of the session. *)
Definition location (first_row : series) : result (option float * option float) :=
  let location_str := str (get first_row "training_location") in
  (* pd.notna(location_str) holds of every string *)
  if negb (existsb (String.eqb (strip location_str)) ["nan"; ""]) then
    try_except
      (let coords := split_space location_str in
       c0 ← index coords 0;
       lat ← py_float c0;
       c1 ← index coords 1;
       lon ← py_float c1;
       Ok (Some lat, Some lon))
      [ValueError; IndexError] (None, None)
  else Ok (None, None).

(** Whether [s] starts with a match of [\d{2}:\d{2}:\d{2}]. *)
Definition hms_prefix (s : string) : bool :=
  match s with
  | String h1 (String h2 (String c1 (String m1 (String m2
      (String c2 (String s1 (String s2 _))))))) =>
      is_digit h1 && is_digit h2 && Ascii.eqb c1 ":"
      && is_digit m1 && is_digit m2 && Ascii.eqb c2 ":"
      && is_digit s1 && is_digit s2
  | _ => false
  end.

(** [re.search(r'\d{2}:\d{2}:\d{2}', s)]: the leftmost match, if any. *)
Fixpoint re_search_hms (s : string) : option string :=
  if hms_prefix s then Some (substring 0 8 s)
  else match s with
       | String _ s' => re_search_hms s'
       | EmptyString => None
       end.

(** [m.group()]: [AttributeError] when [m] is [None]. *)
Definition group (m : option string) : result string :=
  match m with
  | Some t => Ok t
  | None => Raise AttributeError
  end.

Record time : Type := Time { hour : Z; minute : Z; second : Z }.

Definition two_digits (a b : ascii) : Z := (10 * digit_val a + digit_val b)%Z.

(** [pd.to_datetime(tok, format='%H:%M:%S').time()] on a token of the
    pattern above: [ValueError] when the hour is above 23, the minute
    above 59 or the second above 61; the seconds 60 and 61 are carried
    into the minute, past midnight if need be. *)
Definition to_time (tok : string) : result time :=
  match tok with
  | String h1 (String h2 (String _ (String m1 (String m2
      (String _ (String s1 (String s2 EmptyString))))))) =>
      let h := two_digits h1 h2 in
      let m := two_digits m1 m2 in
      let s := two_digits s1 s2 in
      if hms_prefix tok && (h <? 24)%Z && (m <? 60)%Z && (s <? 62)%Z
      then
        let t := ((h * 3600 + m * 60 + s) mod 86400)%Z in
        Ok (Time (t / 3600) (t / 60 mod 60) (t mod 60))%Z
      else Raise ValueError
  | _ => Raise ValueError
  end.

(** Seconds since midnight. *)
Definition seconds_of_day (t : time) : Z :=
  (hour t * 3600 + minute t * 60 + second t)%Z.

(** Lines 98-105: the duration of the session in hours.  The handler
    assigns the integer 0, which is the number 0.0 here. *)
Definition avg_training_time_hours (first_row : series) : result float :=
  try_except
    (tok ← group (re_search_hms (str (get first_row "start")));
     start_dt ← to_time tok;
     tok' ← group (re_search_hms (str (get first_row "end")));
     end_dt ← to_time tok';
     let duration_td := (seconds_of_day end_dt - seconds_of_day start_dt)%Z in
     Ok (float_of_Z duration_td / 3600)%float)
    [ValueError; AttributeError] 0%float.

(** Line 107, on binary64 indicators. *)
Definition quality_score (first_row : series) : float :=
  ((get_num first_row "q_read_write" 0
    + get_num first_row "q_recognize_currency" 0
    + get_num first_row "q_simple_math" 0) / 3)%float.

(** [group[col].count()]: the cells that are not missing. *)
Definition count (cells : list value) : Z :=
  Z.of_nat (length (List.filter notna cells)).

(** Lines 93-96. *)
Definition retention_rate (day2_attendance : gmap string (gset string))
    (session_id : string) (group : list series) : float :=
  let beneficiary_count_day1 := count (map (fun r => get r "beneficiary_cnic") group) in
  let cnics_day1 : gset string :=
    list_to_set (map (fun r => str (get r "beneficiary_cnic")) group) in
  let cnics_day2 : gset string := default ∅ (day2_attendance !! session_id) in
  if (0 <? beneficiary_count_day1)%Z
  then (float_of_Z (Z.of_nat (size cnics_day2))
        / float_of_Z beneficiary_count_day1 * 100)%float
  else 0%float.

(** [s.dropna().value_counts().to_dict()] *)
Definition value_counts (cells : list value) : gmap string nat :=
  fold_left (fun acc v => match v with
                          | VStr s => <[s := S (default 0%nat (acc !! s))]> acc
                          | VNone | VNaN => acc
                          end) cells ∅.

(** ** The summary of a session (lines 109-123) *)

Record Summary : Type := {
  TrainingID : string;
  Training_Date : string;
  Province : value;
  District : value;
  ASPC_Name : value;
  Beneficiary_Count_Actual : Z;
  Female_Beneficiaries : Z;
  Retention_Rate_Pct : float;
  Quality_Index : float;
  Avg_Training_Time_Hours : float;
  Female_Occupations : gmap string nat;
  Start_Location_Lat : option float;
  Start_Location_Lon : option float
}.

(** The body of the loop over the groups (lines 82-123).  The retention
    rate and the quality score are [numpy.float64] scalars (the count and
    the indicators are pandas values), the duration is a Python [float]:
    [round] acts on each by the rule of its type. *)
Definition summarise (day2_attendance : gmap string (gset string))
    (session_id : string) (group : list series) : result Summary :=
  first_row ← index group 0;
  '(lat, lon) ← location first_row;
  let beneficiary_count_day1 := count (map (fun r => get r "beneficiary_cnic") group) in
  let retention_rate := retention_rate day2_attendance session_id group in
  avg_training_time_hours ← avg_training_time_hours first_row;
  let quality_score := quality_score first_row in
  Ok {| TrainingID := session_id;
        Training_Date := hd "" (split_space (str (get first_row "SubmissionDate")));
        Province := get first_row "province_select";
        District := get first_row "district_select";
        ASPC_Name := get first_row "lead_trainer_name";
        Beneficiary_Count_Actual := beneficiary_count_day1;
        Female_Beneficiaries := beneficiary_count_day1;
        Retention_Rate_Pct := float64_round retention_rate 2;
        Quality_Index := float64_round quality_score 2;
        Avg_Training_Time_Hours := round avg_training_time_hours 1;
        Female_Occupations := value_counts (map (fun r => get r "occupation") group);
        Start_Location_Lat := lat;
        Start_Location_Lon := lon |}.

(** Lines 33-75: the attendance index and the long-format table. *)
Definition reshaper (df_master : DataFrame)
  : result (gmap string (gset string) * DataFrame) :=
  df_day2 ← select_menu df_master "day2";
  let day2_attendance := day2_attendance df_day2 in
  df_day1 ← select_menu df_master "day1";
  Ok (day2_attendance, df_final_database (long_format_list df_day1)).

(** Lines 78-123: one summary per session. *)
Definition aggregator (day2_attendance : gmap string (gset string))
    (df_final_database : DataFrame) : result (list Summary) :=
  grouped_by_session ← groupby_session df_final_database;
  mapM (fun '(session_id, group) => summarise day2_attendance session_id group)
    grouped_by_session.

(** The records of the dashboard for a master table. *)
Definition dashboard_records (df_master : DataFrame) : result (list Summary) :=
  '(day2_attendance, df_final_database) ← reshaper df_master;
  aggregator day2_attendance df_final_database.

(** ** The script (lines 17-139) *)

Definition MONTHLY_TARGET_PER_TRAINER : float := (2048 / 8)%float.
Definition TOTAL_PROJECT_TARGET_BENEFICIARIES : Z := 250000%Z.

(** The object handed to [json.dump]. *)
Record artifact : Type := {
  dashboard_data : list Summary;
  metadata : Z * float
}.

(** What the script prints. *)
Inductive message : Type :=
| MasterNotFound (path : string)
| Reading (path : string)
| Created (n : nat)
| Saved (path : string)
| ErrorOccurred (e : exn).

(** The files, by path, and the lines printed so far. *)
Record world : Type := World {
  files : gmap string string;
  printed : list message
}.

Definition print (m : message) (w : world) : world :=
  {| files := files w; printed := printed w ++ [m] |}.

(** [with open(path, 'w') as f: f.write(content)] *)
Definition write_file (path content : string) (w : world) : world :=
  {| files := <[path := content]> (files w); printed := printed w |}.

Section Script.
(** The spreadsheet reader and the serializer. *)
Variable read_excel : string -> result DataFrame.
Variable json_dumps : artifact -> string.

Definition prepare_dashboard_data (master_file_path output_json_path : string)
    (w : world) : world :=
  match files w !! master_file_path with
  | None => print (MasterNotFound master_file_path) w
  | Some workbook =>
      let w := print (Reading master_file_path) w in
      match read_excel workbook with
      | Raise e => print (ErrorOccurred e) w
      | Ok df_master =>
          match reshaper df_master with
          | Raise e => print (ErrorOccurred e) w
          | Ok (day2_attendance, df_final_database) =>
              let w := print (Created (length (rows df_final_database))) w in
              match aggregator day2_attendance df_final_database with
              | Raise e => print (ErrorOccurred e) w
              | Ok dashboard_records =>
                  let final_json :=
                    {| dashboard_data := dashboard_records;
                       metadata := (TOTAL_PROJECT_TARGET_BENEFICIARIES,
                                    MONTHLY_TARGET_PER_TRAINER) |} in
                  let w := write_file output_json_path (json_dumps final_json) w in
                  print (Saved output_json_path) w
              end
          end
      end
  end.
End Script.

(** ** Notions used in the statements *)

(** Whether an attendance row has both of its fields and belongs to
    [session_id]. *)
Definition attendance_row_of (session_id : string) (row : series) : bool :=
  notna (get row "day2_session_select") && notna (get row "beneficiaries_present")
  && String.eqb (str (get row "day2_session_select")) session_id.

(** The last such row of a table. *)
Definition last_attendance_row (session_id : string) (rows : list series)
  : option series :=
  List.find (attendance_row_of session_id) (rev rows).

(** The time of day read from a timestamp string: the leftmost token of
    the pattern, when there is one and it is a time. *)
Definition time_of (timestamp : string) : option time :=
  match re_search_hms timestamp with
  | Some tok => match to_time tok with
                | Ok t => Some t
                | Raise _ => None
                end
  | None => None
  end.



(** ** Tables used in the examples *)

(** A registration row with one beneficiary, in slot 1; the cells of the
    attendance columns are empty. *)
Definition day1_row (session_id cnic : string) : series :=
  {| text := list_to_map
       [("main_menu", VStr "day1"); ("session_id", VStr session_id);
        ("beneficiary_cnic_1", VStr cnic); ("day2_session_select", VNaN);
        ("beneficiaries_present", VNaN)];
     num := ∅ |}.

(** An attendance row; the cells of the registration columns are empty. *)
Definition day2_row (session_id present : string) : series :=
  {| text := list_to_map
       [("main_menu", VStr "day2"); ("session_id", VNaN);
        ("beneficiary_cnic_1", VNaN); ("day2_session_select", VStr session_id);
        ("beneficiaries_present", VStr present)];
     num := ∅ |}.

Definition master_columns : list string :=
  ["main_menu"; "session_id"; "beneficiary_cnic_1"; "day2_session_select";
   "beneficiaries_present"].

(** The end-to-end scenario of the specification. *)
Definition end_to_end_table : DataFrame :=
  {| columns := master_columns;
     rows := [day1_row "S1" "123-45"; day1_row "S1" "12345";
              day2_row "S1" "12345 99999"] |}.

(** One registered beneficiary, three identifiers in the attendance list. *)
Definition crowded_table : DataFrame :=
  {| columns := master_columns;
     rows := [day1_row "S1" "11111"; day2_row "S1" "11111 22222 33333"] |}.

(** Two attendance rows for the same session. *)
Definition two_attendance_rows : DataFrame :=
  {| columns := master_columns;
     rows := [day2_row "S1" "11111"; day2_row "S1" "22222"] |}.

(** One registered beneficiary; the attendance list names them and holds
    a piece without digits. *)
Definition no_digit_token_table : DataFrame :=
  {| columns := master_columns;
     rows := [day1_row "S1" "12345"; day2_row "S1" "12345 n/a"] |}.

(** An attendance row whose two identifiers are separated by a tab. *)
Definition tab_separated_rows : DataFrame :=
  {| columns := master_columns;
     rows := [day2_row "S1" ("12345" +:+ String "009"%char "99999")] |}.

(** A registration row with one beneficiary and the session-level fields
    of the metrics. *)
Definition session_row (start_ end_ training_location : value)
    (indicators : list (string * float)) : series :=
  {| text := list_to_map
       [("main_menu", VStr "day1"); ("session_id", VStr "S1");
        ("beneficiary_cnic_1", VStr "12345"); ("start", start_); ("end", end_);
        ("training_location", training_location)];
     num := list_to_map indicators |}.

Definition session_table (start_ end_ training_location : value)
    (indicators : list (string * float)) : DataFrame :=
  {| columns := ["main_menu"; "session_id"; "beneficiary_cnic_1"; "start"; "end";
                 "training_location"] ++ map fst indicators;
     rows := [session_row start_ end_ training_location indicators] |}.

(** ** Notions used in the further properties *)

(** Strictly ascending lists of keys. *)
Definition key_lt (a b : string) : Prop := String.compare a b = Lt.

Definition ascending (l : list string) : Prop := StronglySorted key_lt l.

(** The registration rows of a table, as [select_menu] keeps them. *)
Definition registration_rows (df_master : DataFrame) : DataFrame :=
  {| columns := columns df_master;
     rows := List.filter (fun r => value_eqb (get r "main_menu") "day1")
               (rows df_master) |}.

(** Its attendance rows. *)
Definition attendance_rows (df_master : DataFrame) : DataFrame :=
  {| columns := columns df_master;
     rows := List.filter (fun r => value_eqb (get r "main_menu") "day2")
               (rows df_master) |}.

(** The records of a table that belong to a session. *)
Definition records_of (session_id : string) (l : list series) : list series :=
  List.filter (fun r => value_eqb (get r "session_id") session_id) l.

(** How many cells hold the text [o]. *)
Definition occurrences (o : string) (cells : list value) : nat :=
  length (List.filter (fun v => value_eqb v o) cells).

(** Strings without a space. *)
Definition no_space (s : string) : Prop :=
  Forall (fun c => c <> " "%char) (list_ascii_of_string s).

(** Strings of decimal digits. *)
Definition all_digits (s : string) : Prop :=
  Forall (fun c => is_digit c = true) (list_ascii_of_string s).

(** The sum of a list of integers. *)
Definition total (l : list Z) : Z := fold_right Z.add 0%Z l.

(** * Properties *)

(** ** The identifier normalizer *)

Lemma re_sub_non_digits_filter (s : string) :
  list_ascii_of_string (re_sub_non_digits s)
  = List.filter is_digit (list_ascii_of_string s).
Proof.
  induction s as [|c s IH]; simpl; [reflexivity|].
  destruct (is_digit c); simpl; now rewrite IH.
Qed.

Lemma re_sub_non_digits_idem (s : string) :
  re_sub_non_digits (re_sub_non_digits s) = re_sub_non_digits s.
Proof.
  induction s as [|c s IH]; simpl; [reflexivity|].
  destruct (is_digit c) eqn:E; simpl; [rewrite E, IH|]; easy.
Qed.

Lemma re_sub_non_digits_same (s t : string) :
  same_digits s t -> re_sub_non_digits s = re_sub_non_digits t.
Proof.
  induction 1 as [|c s t _ IH|c s t Hc _ IH|c s t Hc _ IH]; simpl.
  - reflexivity.
  - now rewrite IH.
  - now rewrite Hc.
  - now rewrite Hc.
Qed.

Example standardize_cnic_dashes :
  standardize_cnic (VStr "35202-1234567-1") = "3520212345671".
Proof. reflexivity. Qed.

(** C5.  The identifier normalizer returns the decimal digits of its input
    in their order and nothing else, returns the empty string for a missing
    input, is idempotent, and gives equal results on two strings that
    differ only in non-digit characters. *)
Theorem standardize_cnic_digits_only :
  (forall s, list_ascii_of_string (standardize_cnic (VStr s))
             = List.filter is_digit (list_ascii_of_string s))
  /\ standardize_cnic VNaN = "" /\ standardize_cnic VNone = ""
  /\ (forall v, standardize_cnic (VStr (standardize_cnic v)) = standardize_cnic v)
  /\ (forall s t, same_digits s t ->
                  standardize_cnic (VStr s) = standardize_cnic (VStr t)).
Proof.
  repeat split.
  - intros s. apply re_sub_non_digits_filter.
  - intros [| |s]; unfold standardize_cnic; simpl; try reflexivity.
    apply re_sub_non_digits_idem.
  - intros s t H. unfold standardize_cnic; simpl.
    now apply re_sub_non_digits_same.
Qed.

Lemma standardize_cnic_digits_only_witness :
  same_digits "123-45" "12345"
  /\ standardize_cnic (VStr "123-45") = standardize_cnic (VStr "12345").
Proof.
  assert (H : same_digits "123-45" "12345").
  { do 3 apply sd_keep. apply sd_skip_l; [reflexivity|].
    do 2 apply sd_keep. apply sd_nil. }
  split; [exact H|].
  exact (proj2 (proj2 (proj2 (proj2 standardize_cnic_digits_only))) _ _ H).
Defined.

(** ** The library functions on small inputs *)

Example split_space_double : split_space "a  b " = ["a"; ""; "b"; ""].
Proof. reflexivity. Qed.

Example strip_both_ends : strip "  a b  " = "a b".
Proof. reflexivity. Qed.

Example slot_col_35 : slot_col "beneficiary_cnic" 35 = "beneficiary_cnic_35".
Proof. reflexivity. Qed.

Example re_search_hms_timestamp :
  re_search_hms "2025-03-04T10:00:00.000+05:00" = Some "10:00:00".
Proof. reflexivity. Qed.

Example to_time_midnight_24 : to_time "24:00:00" = Raise ValueError.
Proof. reflexivity. Qed.

Example to_time_half_past_noon : to_time "12:30:00" = Ok (Time 12 30 0).
Proof. reflexivity. Qed.

Example to_time_second_60 : to_time "12:30:60" = Ok (Time 12 31 0).
Proof. reflexivity. Qed.

Example to_time_second_61_midnight : to_time "23:59:61" = Ok (Time 0 0 1).
Proof. reflexivity. Qed.

Example to_time_second_62 : to_time "12:30:62" = Raise ValueError.
Proof. reflexivity. Qed.

Example py_float_33_6 : py_float "33.6" = Ok 33.6%float.
Proof. vm_compute. reflexivity. Qed.

Example py_float_exp : py_float " -1_0.25e1 " = Ok (-102.5)%float.
Proof. vm_compute. reflexivity. Qed.

Example py_float_bad : py_float "not-a-coord" = Raise ValueError.
Proof. vm_compute. reflexivity. Qed.

Example py_float_empty : py_float "" = Raise ValueError.
Proof. vm_compute. reflexivity. Qed.

Example py_float_unit_separator :
  py_float ("33.6" +:+ String "031"%char "") = Raise ValueError.
Proof. vm_compute. reflexivity. Qed.

Example round_half_even : round 0.125 2 = 0.12%float.
Proof. vm_compute. reflexivity. Qed.

Example round_2_675 : round 2.675 2 = 2.67%float.
Proof. vm_compute. reflexivity. Qed.

Example round_third : round (float_of_Z 1 / float_of_Z 3 * 100) 2 = 33.33%float.
Proof. vm_compute. reflexivity. Qed.

Example round_0_025 : round 0.025 2 = 0.03%float.
Proof. vm_compute. reflexivity. Qed.

Example float64_round_0_025 : float64_round 0.025 2 = 0.02%float.
Proof. vm_compute. reflexivity. Qed.

Example float64_round_0_005 : float64_round 0.005 2 = 0%float.
Proof. vm_compute. reflexivity. Qed.

Example float64_round_third :
  float64_round (float_of_Z 1 / float_of_Z 3 * 100) 2 = 33.33%float.
Proof. vm_compute. reflexivity. Qed.

(** ** Retention rate *)

(** The rate is computed from the size of the attendance set and the
    number of records alone: the identifiers of the group play no part. *)
Lemma retention_rate_ignores_identifiers (att : gmap string (gset string))
    (session_id : string) (g1 g2 : list series) :
  count (map (fun r => get r "beneficiary_cnic") g1)
  = count (map (fun r => get r "beneficiary_cnic") g2) ->
  retention_rate att session_id g1 = retention_rate att session_id g2.
Proof. unfold retention_rate. now intros ->. Qed.

(** C1.  On the end-to-end scenario (identifiers "123-45" and "12345"
    registered for S1, attendance list "12345 99999") the program reports
    2 beneficiaries and a retention rate of 100.0: the two identifiers of
    the attendance list over the two records.  The rate of the claim,
    round(1/2*100, 2), is 50.0. *)
Theorem retention_rate_end_to_end :
  exists s, dashboard_records end_to_end_table = Ok [s]
    /\ Beneficiary_Count_Actual s = 2%Z
    /\ Retention_Rate_Pct s = 100%float
    /\ round (float_of_Z 1 / float_of_Z 2 * 100) 2 = 50%float.
Proof.
  eexists. split; [vm_compute; reflexivity|].
  repeat split; vm_compute; reflexivity.
Qed.

(** C2.  With one registered beneficiary and three identifiers in the
    attendance list of the session, the program reports a retention rate
    of 300.0, which is above 100. *)
Theorem retention_rate_above_100 :
  exists s, dashboard_records crowded_table = Ok [s]
    /\ Beneficiary_Count_Actual s = 1%Z
    /\ Retention_Rate_Pct s = 300%float
    /\ (Retention_Rate_Pct s <=? 100)%float = false.
Proof.
  eexists. split; [vm_compute; reflexivity|].
  repeat split; vm_compute; reflexivity.
Qed.


(** ** The attendance index *)

Lemma cnic_list_elem (beneficiaries_present : value) (x : string) :
  x ∈ cnic_list beneficiaries_present
  <-> exists c, In c (split_space (str beneficiaries_present))
                /\ strip c <> "" /\ x = re_sub_non_digits c.
Proof.
  unfold cnic_list. rewrite elem_of_list_to_set, list_elem_of_In, in_map_iff.
  split.
  - intros (c & <- & Hc). apply filter_In in Hc as [Hin Hne].
    exists c. split; [exact Hin|]. split; [|reflexivity].
    intros E. rewrite E in Hne. discriminate Hne.
  - intros (c & Hin & Hne & ->). exists c. split; [reflexivity|].
    apply filter_In. split; [exact Hin|].
    destruct (String.eqb_spec (strip c) ""); [contradiction|reflexivity].
Qed.

(** A piece without digits is not blank: its normalized form, the empty
    string, is a member of the set. *)
Example cnic_list_no_digits :
  elements (cnic_list (VStr "12345  n/a")) = [""; "12345"]
  \/ elements (cnic_list (VStr "12345  n/a")) = ["12345"; ""].
Proof. vm_compute. auto. Qed.

Lemma attendance_step_missing (att : gmap string (gset string)) (row : series) :
  notna (get row "day2_session_select") && notna (get row "beneficiaries_present") = false ->
  attendance_step att row = att.
Proof. intros H. unfold attendance_step. now rewrite H. Qed.

Lemma day2_attendance_lookup (df_day2 : DataFrame) (session_id : string) :
  day2_attendance df_day2 !! session_id
  = (fun r => cnic_list (get r "beneficiaries_present"))
      <$> last_attendance_row session_id (rows df_day2).
Proof.
  unfold day2_attendance, last_attendance_row.
  induction (rows df_day2) as [|row l IH] using rev_ind.
  - reflexivity.
  - rewrite fold_left_app, rev_unit. simpl.
    unfold attendance_step at 1, attendance_row_of at 1.
    destruct (notna (get row "day2_session_select")
              && notna (get row "beneficiaries_present")); simpl.
    + destruct (String.eqb_spec (str (get row "day2_session_select")) session_id)
        as [->|Hne].
      * now rewrite lookup_insert_eq.
      * now rewrite lookup_insert_ne.
    + exact IH.
Qed.

(** C3.  The attendance index is not the one of the claim, on three
    tables.  With the attendance list "12345 n/a" the piece "n/a" passes
    the test of line 39, made before the normalization, and its normalized
    form, the empty string, is stored as an identifier of the session and
    counted as an attendee: one registered beneficiary has a retention
    rate of 200.0.  With two attendance rows for session S1, listing
    "11111" and then "22222", the second replaces the first and the index
    holds "22222" alone.  With the two identifiers of a list separated by
    a tab, which is whitespace but not the space of line 39, the index
    holds one identifier, "1234599999". *)
Theorem day2_attendance_empty_identifier :
  (exists att final s,
      reshaper no_digit_token_table = Ok (att, final)
      /\ standardize_cnic (VStr "n/a") = ""
      /\ default ∅ (att !! "S1") = {[ ""; "12345" ]}
      /\ dashboard_records no_digit_token_table = Ok [s]
      /\ Beneficiary_Count_Actual s = 1%Z
      /\ Retention_Rate_Pct s = 200%float)
  /\ (exists att final,
        reshaper two_attendance_rows = Ok (att, final)
        /\ standardize_cnic (VStr "11111") = "11111"
        /\ default ∅ (att !! "S1") = {[ "22222" ]})
  /\ (exists att final,
        reshaper tab_separated_rows = Ok (att, final)
        /\ default ∅ (att !! "S1") = {[ "1234599999" ]}).
Proof.
  split; [|split].
  - exists (day2_attendance (attendance_rows no_digit_token_table)),
      (df_final_database (long_format_list (registration_rows no_digit_token_table))).
    eexists.
    split; [vm_compute; reflexivity|]. split; [reflexivity|].
    split; [vm_compute; reflexivity|]. split; [vm_compute; reflexivity|].
    split; vm_compute; reflexivity.
  - exists (day2_attendance (attendance_rows two_attendance_rows)),
      (df_final_database (long_format_list (registration_rows two_attendance_rows))).
    split; [vm_compute; reflexivity|]. split; vm_compute; reflexivity.
  - exists (day2_attendance (attendance_rows tab_separated_rows)),
      (df_final_database (long_format_list (registration_rows tab_separated_rows))).
    split; vm_compute; reflexivity.
Qed.

(** ** The reshape step *)

Lemma reshape_row_length (df_day1 : DataFrame) (row : series) :
  length (reshape_row df_day1 row)
  = length (List.filter (slot_present df_day1 row) (seq 1 35)).
Proof.
  unfold reshape_row. induction (seq 1 35) as [|i l IH]; simpl; [reflexivity|].
  destruct (slot_present df_day1 row i); simpl; now rewrite IH.
Qed.

(** The four fields of a slot are the cells of the row, as they stand. *)
Lemma beneficiary_data_slot_fields (row : series) (i : nat) (prefix : string) :
  In prefix beneficiary_specific_prefixes ->
  get (beneficiary_data row i) prefix = get row (slot_col prefix i).
Proof.
  unfold beneficiary_data, beneficiary_specific_prefixes, setitem, get. simpl.
  intros [<-|[<-|[<-|[<-|[]]]]].
  - do 3 rewrite lookup_insert_ne by discriminate. now rewrite lookup_insert_eq.
  - do 2 rewrite lookup_insert_ne by discriminate. now rewrite lookup_insert_eq.
  - rewrite lookup_insert_ne by discriminate. now rewrite lookup_insert_eq.
  - now rewrite lookup_insert_eq.
Qed.

Lemma beneficiary_data_cnic (row : series) (i : nat) :
  get (beneficiary_data row i) "beneficiary_cnic"
  = get row (slot_col "beneficiary_cnic" i).
Proof. apply beneficiary_data_slot_fields. simpl. auto. Qed.

(** The session-level fields are those of the row. *)
Lemma beneficiary_data_session_fields (row : series) (i : nat) (col : string) :
  In col ["SubmissionDate"; "start"; "end"; "province_select"; "district_select";
          "lead_trainer_name"; "session_id"; "training_location"] ->
  get (beneficiary_data row i) col = get row col.
Proof.
  unfold beneficiary_data, beneficiary_specific_prefixes, setitem, get. simpl.
  intros H. do 5 (rewrite lookup_insert_ne
                    by (intros <-; simpl in H; intuition discriminate)).
  simpl in H. unfold session_data. simpl.
  repeat destruct H as [<-|H];
    try (repeat (rewrite lookup_insert_ne by discriminate);
         now rewrite lookup_insert_eq).
  destruct H.
Qed.

(** Every record of the long-format table has its identifier, so the
    count of a group is the number of its records. *)
Lemma reshape_row_cnic_present (df_day1 : DataFrame) (row r : series) :
  In r (reshape_row df_day1 row) -> notna (get r "beneficiary_cnic") = true.
Proof.
  unfold reshape_row. rewrite in_flat_map. intros (i & _ & Hr).
  destruct (slot_present df_day1 row i) eqn:Hp; [|destruct Hr].
  destruct Hr as [<-|[]]. rewrite beneficiary_data_cnic.
  unfold slot_present in Hp. now apply andb_prop in Hp as [_ Hp].
Qed.

(** C4.  The record emitted for a slot holds the identifier as it stands
    in the row, not its normalized form: the loop over the prefixes
    stores the cell of the slot under the key that held the normalized
    identifier.  For the identifier "123-45" the record holds "123-45",
    and its normalized form is "12345". *)
Theorem beneficiary_data_raw_identifier :
  (forall row i,
      get (beneficiary_data row i) "beneficiary_cnic"
      = get row (slot_col "beneficiary_cnic" i))
  /\ (exists att final, reshaper end_to_end_table = Ok (att, final)
        /\ map (fun d => get d "beneficiary_cnic") (rows final)
           = [VStr "123-45"; VStr "12345"])
  /\ standardize_cnic (VStr "123-45") = "12345".
Proof.
  split; [exact beneficiary_data_cnic|]. split; [|reflexivity].
  eexists _, _. split; vm_compute; reflexivity.
Qed.

(** ** Exceptions of the parsing helpers *)

Lemma py_float_raises (s : string) (e : exn) :
  py_float s = Raise e -> e = ValueError.
Proof.
  unfold py_float.
  destruct (match float_rstrip (float_lstrip s) with
            | String "-" u => (true, u)
            | String "+" u => (false, u)
            | _ => (false, float_rstrip (float_lstrip s))
            end) as [neg u].
  destruct (String.eqb (lowercase u) "inf" || String.eqb (lowercase u) "infinity");
    [discriminate|].
  destruct (String.eqb (lowercase u) "nan"); [discriminate|].
  destruct (floatnumber u) as [[m e']|]; [discriminate|congruence].
Qed.

Lemma to_time_raises (tok : string) (e : exn) :
  to_time tok = Raise e -> e = ValueError.
Proof.
  unfold to_time.
  repeat match goal with
         | |- context [match ?s with EmptyString => _ | String _ _ => _ end] =>
             destruct s; try congruence
         end.
  match goal with |- context [if ?b then _ else _] => destruct b end; congruence.
Qed.

(** ** Coordinates *)

Section Location.
Variable first_row : series.
Let location_str := str (get first_row "training_location").

Lemma location_tokens (c0 c1 : string) (rest : list string) (lat lon : float) :
  existsb (String.eqb (strip location_str)) ["nan"; ""] = false ->
  split_space location_str = c0 :: c1 :: rest ->
  py_float c0 = Ok lat -> py_float c1 = Ok lon ->
  location first_row = Ok (Some lat, Some lon).
Proof.
  intros Hg Hs H0 H1. unfold location. fold location_str.
  rewrite Hg, Hs. simpl. rewrite H0. simpl. rewrite H1. reflexivity.
Qed.

Lemma location_bad_token (c0 c1 : string) (rest : list string) :
  split_space location_str = c0 :: c1 :: rest ->
  py_float c0 = Raise ValueError \/ py_float c1 = Raise ValueError ->
  location first_row = Ok (None, None).
Proof.
  intros Hs H. unfold location. fold location_str.
  destruct (existsb _ _); [reflexivity|]. rewrite Hs. simpl.
  destruct H as [H|H].
  - rewrite H. reflexivity.
  - destruct (py_float c0) as [lat|e] eqn:E; simpl.
    + rewrite H. reflexivity.
    + apply py_float_raises in E as ->. reflexivity.
Qed.

Lemma location_few_tokens :
  (length (split_space location_str) < 2)%nat ->
  location first_row = Ok (None, None).
Proof.
  intros Hl. unfold location. fold location_str.
  destruct (existsb _ _); [reflexivity|].
  destruct (split_space location_str) as [|c0 [|c1 rest]]; simpl in *.
  - reflexivity.
  - destruct (py_float c0) as [lat|e] eqn:E; [reflexivity|].
    apply py_float_raises in E as ->. reflexivity.
  - lia.
Qed.

Lemma location_all_or_nothing :
  location first_row = Ok (None, None)
  \/ exists c0 c1 rest lat lon,
       split_space location_str = c0 :: c1 :: rest
       /\ py_float c0 = Ok lat /\ py_float c1 = Ok lon
       /\ location first_row = Ok (Some lat, Some lon).
Proof.
  destruct (existsb (String.eqb (strip location_str)) ["nan"; ""]) eqn:Hg.
  { left. unfold location. fold location_str. now rewrite Hg. }
  destruct (split_space location_str) as [|c0 [|c1 rest]] eqn:Hs;
    [left; apply location_few_tokens; rewrite Hs; simpl; lia ..|].
  destruct (py_float c0) as [lat|e0] eqn:E0.
  - destruct (py_float c1) as [lon|e1] eqn:E1.
    + right. exists c0, c1, rest, lat, lon. repeat split; try assumption.
      now apply (location_tokens c0 c1 rest).
    + left. apply py_float_raises in E1 as E; subst e1.
      apply (location_bad_token c0 c1 rest); auto.
  - left. apply py_float_raises in E0 as E; subst e0.
    apply (location_bad_token c0 c1 rest); auto.
Qed.

Lemma location_missing :
  notna (get first_row "training_location") = false ->
  location first_row = Ok (None, None).
Proof.
  unfold location. destruct (get first_row "training_location"); simpl;
    [reflexivity ..|discriminate].
Qed.
End Location.

(** C6, as amended.  The parse of the location never raises and sets both
    coordinates or neither.  Both are left unset when the value is
    missing, when the string has fewer than two pieces between single
    spaces, and when the first or the second piece is not a number;
    otherwise they are the numbers read from the first two pieces, the
    pieces after the second being ignored.  The string "33.6 73.0" gives
    latitude 33.6 and longitude 73.0. *)
Theorem location_both_or_neither :
  (forall first_row,
      location first_row = Ok (None, None)
      \/ exists c0 c1 rest lat lon,
           split_space (str (get first_row "training_location")) = c0 :: c1 :: rest
           /\ py_float c0 = Ok lat /\ py_float c1 = Ok lon
           /\ location first_row = Ok (Some lat, Some lon))
  /\ (forall first_row,
         notna (get first_row "training_location") = false ->
         location first_row = Ok (None, None))
  /\ (forall first_row,
         (length (split_space (str (get first_row "training_location"))) < 2)%nat ->
         location first_row = Ok (None, None))
  /\ (forall first_row c0 c1 rest,
         split_space (str (get first_row "training_location")) = c0 :: c1 :: rest ->
         py_float c0 = Raise ValueError \/ py_float c1 = Raise ValueError ->
         location first_row = Ok (None, None))
  /\ (forall first_row c0 c1 rest lat lon,
         existsb (String.eqb (strip (str (get first_row "training_location"))))
           ["nan"; ""] = false ->
         split_space (str (get first_row "training_location")) = c0 :: c1 :: rest ->
         py_float c0 = Ok lat -> py_float c1 = Ok lon ->
         location first_row = Ok (Some lat, Some lon))
  /\ location (session_row VNaN VNaN (VStr "33.6 73.0") [])
     = Ok (Some 33.6%float, Some 73%float).
Proof.
  split; [exact location_all_or_nothing|].
  split; [exact location_missing|].
  split; [exact location_few_tokens|].
  split; [exact location_bad_token|].
  split; [exact location_tokens|].
  vm_compute. reflexivity.
Qed.

Lemma location_both_or_neither_witness :
  location (session_row VNaN VNaN VNaN []) = Ok (None, None)
  /\ location (session_row VNaN VNaN (VStr "33.6") []) = Ok (None, None)
  /\ location (session_row VNaN VNaN (VStr "33.6 north") []) = Ok (None, None).
Proof.
  destruct location_both_or_neither as (_ & Hmissing & Hfew & Hbad & _).
  split; [apply Hmissing; reflexivity|].
  split; [apply Hfew; vm_compute; lia|].
  apply (Hbad _ "33.6" "north" []); [reflexivity|right; reflexivity].
Defined.

(** C6, the claim as stated fails: a location string of three pieces,
    "33.6 73.0 500.0", sets both coordinates. *)
Lemma location_three_tokens :
  length (split_space "33.6 73.0 500.0") = 3%nat
  /\ exists s,
       dashboard_records (session_table VNaN VNaN (VStr "33.6 73.0 500.0") []) = Ok [s]
       /\ Start_Location_Lat s = Some 33.6%float
       /\ Start_Location_Lon s = Some 73%float.
Proof.
  split; [reflexivity|]. eexists. split; [vm_compute; reflexivity|].
  split; reflexivity.
Qed.

(** ** The summary of a session *)

Lemma summarise_Ok (att : gmap string (gset string)) (session_id : string)
    (first_row : series) (rest : list series) (s : Summary) :
  summarise att session_id (first_row :: rest) = Ok s ->
  exists lat lon hours,
    location first_row = Ok (lat, lon)
    /\ avg_training_time_hours first_row = Ok hours
    /\ Start_Location_Lat s = lat /\ Start_Location_Lon s = lon
    /\ Avg_Training_Time_Hours s = round hours 1
    /\ Quality_Index s = float64_round (quality_score first_row) 2
    /\ Retention_Rate_Pct s
       = float64_round (retention_rate att session_id (first_row :: rest)) 2
    /\ Beneficiary_Count_Actual s
       = count (map (fun r => get r "beneficiary_cnic") (first_row :: rest))
    /\ Female_Beneficiaries s = Beneficiary_Count_Actual s.
Proof.
  unfold summarise.
  change (index (first_row :: rest) 0) with (Ok first_row).
  cbn [mbind result_bind].
  destruct (location first_row) as [[lat lon]|e]; [|discriminate].
  cbn [mbind result_bind].
  destruct (avg_training_time_hours first_row) as [hours|e]; [|discriminate].
  cbn [mbind result_bind]. intros [= <-]. exists lat, lon, hours.
  repeat split; reflexivity.
Qed.

Lemma mapM_Ok {A B : Type} (f : A -> result B) (l : list A) (k : list B) :
  mapM f l = Ok k -> Forall2 (fun a b => f a = Ok b) l k.
Proof.
  revert k. induction l as [|a l IH]; intros k; simpl.
  - intros [= <-]. constructor.
  - destruct (f a) as [b|e] eqn:E; [|discriminate]. cbn [mbind result_bind].
    destruct (mapM f l) as [k'|e]; [|discriminate]. cbn [mbind result_bind].
    intros [= <-]. constructor; [exact E|now apply IH].
Qed.

(** ** Training time *)

Lemma append_nil_l (s : string) : "" +:+ s = s.
Proof. reflexivity. Qed.

Lemma append_cons (c : ascii) (s t : string) :
  String c s +:+ t = String c (s +:+ t).
Proof. reflexivity. Qed.

Lemma re_search_hms_prefix (s : string) :
  hms_prefix s = true ->
  String.length (substring 0 8 s) = 8%nat
  /\ hms_prefix (substring 0 8 s) = true
  /\ exists post, s = substring 0 8 s +:+ post.
Proof.
  intros H. unfold hms_prefix in H.
  repeat match type of H with
         | match ?x with EmptyString => _ | String _ _ => _ end = true =>
             destruct x; [discriminate H|]
         end.
  match goal with
  | |- context [substring 0 8 ?x] =>
      match x with
      | context [String _ ?s] =>
          is_var s;
          assert (E : exists tok, substring 0 8 x = tok /\ x = tok +:+ s
                                  /\ String.length tok = 8%nat
                                  /\ hms_prefix tok = hms_prefix x)
            by (eexists; destruct s; repeat split; reflexivity)
      end
  end.
  destruct E as (tok & -> & E & Hl & Ht).
  split; [exact Hl|]. split; [now rewrite Ht|]. eauto.
Qed.

(** The token found is the leftmost piece of the string that has the
    shape of the pattern, and nothing is found only when no piece has. *)
Lemma re_search_hms_leftmost (s : string) :
  match re_search_hms s with
  | Some tok =>
      exists pre post,
        s = pre +:+ tok +:+ post
        /\ String.length tok = 8%nat /\ hms_prefix tok = true
        /\ forall pre' rest,
             s = pre' +:+ rest -> (String.length pre' < String.length pre)%nat ->
             hms_prefix rest = false
  | None => forall pre rest, s = pre +:+ rest -> hms_prefix rest = false
  end.
Proof.
  induction s as [|c s IH].
  - intros [|c pre] rest; rewrite ?append_nil_l, ?append_cons;
      [intros <-; reflexivity|discriminate].
  - cbn [re_search_hms]. destruct (hms_prefix (String c s)) eqn:Hp.
    + destruct (re_search_hms_prefix _ Hp) as (Hl & Ht & post & Hs).
      exists "", post. rewrite append_nil_l.
      repeat split; try assumption. simpl. intros ? ? _ Hlt. lia.
    + destruct (re_search_hms s) as [tok|].
      * destruct IH as (pre & post & -> & Hl & Ht & Hleft).
        exists (String c pre), post. repeat split; try assumption.
        intros [|c' pre'] rest; rewrite ?append_nil_l, ?append_cons.
        -- intros <- _. exact Hp.
        -- intros [= <- E] Hlt. apply (Hleft pre' rest E). simpl in Hlt. lia.
      * intros [|c' pre] rest; rewrite ?append_nil_l, ?append_cons.
        -- intros <-. exact Hp.
        -- intros [= <- E]. now apply (IH pre rest).
Qed.





Section TrainingTime.
Variable first_row : series.
Let start_ := str (get first_row "start").
Let end_ := str (get first_row "end").

Lemma avg_training_time_hours_parsed (a b : time) :
  time_of start_ = Some a -> time_of end_ = Some b ->
  avg_training_time_hours first_row
  = Ok (float_of_Z (seconds_of_day b - seconds_of_day a) / 3600)%float.
Proof.
  unfold time_of, avg_training_time_hours. fold start_ end_.
  destruct (re_search_hms start_) as [ts|]; [|discriminate]. simpl.
  destruct (to_time ts) as [a'|]; [|discriminate]. intros [= ->]. simpl.
  destruct (re_search_hms end_) as [te|]; [|discriminate]. simpl.
  destruct (to_time te) as [b'|]; [|discriminate]. intros [= ->]. reflexivity.
Qed.

Lemma avg_training_time_hours_absorbed :
  time_of start_ = None \/ time_of end_ = None ->
  avg_training_time_hours first_row = Ok 0%float.
Proof.
  unfold time_of, avg_training_time_hours. fold start_ end_.
  destruct (re_search_hms start_) as [ts|]; [|reflexivity]. simpl.
  destruct (to_time ts) as [a|e] eqn:Ea;
    [|apply to_time_raises in Ea as ->; reflexivity]. simpl.
  destruct (re_search_hms end_) as [te|]; [|reflexivity]. simpl.
  destruct (to_time te) as [b|e] eqn:Eb;
    [|apply to_time_raises in Eb as ->; reflexivity].
  intros [H|H]; discriminate H.
Qed.
End TrainingTime.

Lemma avg_training_time_hours_total (first_row : series) :
  exists hours, avg_training_time_hours first_row = Ok hours.
Proof.
  destruct (time_of (str (get first_row "start"))) as [a|] eqn:Ea;
    [destruct (time_of (str (get first_row "end"))) as [b|] eqn:Eb|].
  - eexists. exact (avg_training_time_hours_parsed first_row a b Ea Eb).
  - exists 0%float. apply avg_training_time_hours_absorbed. now right.
  - exists 0%float. apply avg_training_time_hours_absorbed. now left.
Qed.

Lemma summarise_total (att : gmap string (gset string)) (session_id : string)
    (first_row : series) (rest : list series) :
  exists s, summarise att session_id (first_row :: rest) = Ok s.
Proof.
  unfold summarise.
  change (index (first_row :: rest) 0) with (Ok first_row).
  cbn [mbind result_bind].
  destruct (avg_training_time_hours_total first_row) as [hours ->].
  destruct (location_all_or_nothing first_row)
    as [->|(c0 & c1 & tl & lat & lon & _ & _ & _ & ->)];
    cbn [mbind result_bind]; eauto.
Qed.

(** Sessions of 15 and of 45 minutes: a duration halfway between two
    decimals goes to the even one. *)
Example round_quarter_hour :
  round (float_of_Z 900 / 3600) 1 = 0.2%float
  /\ round (float_of_Z 2700 / 3600) 1 = 0.8%float.
Proof. split; vm_compute; reflexivity. Qed.



(** ** Quality index *)

Lemma beneficiary_data_num (row : series) (i : nat) :
  num (beneficiary_data row i) = num (session_data row).
Proof. reflexivity. Qed.

Lemma beneficiary_data_indicator (row : series) (i : nat) (col : string) :
  In col ["q_read_write"; "q_recognize_currency"; "q_simple_math"] ->
  num (beneficiary_data row i) !! col = Some (default 0%float (num row !! col)).
Proof.
  rewrite beneficiary_data_num. unfold session_data, get_num. simpl.
  intros [<-|[<-|[<-|[]]]].
  - now rewrite lookup_insert_eq.
  - rewrite lookup_insert_ne by discriminate. now rewrite lookup_insert_eq.
  - do 2 rewrite lookup_insert_ne by discriminate. now rewrite lookup_insert_eq.
Qed.

(** C8.  An indicator whose cell is empty is not replaced by 0: the
    default of [get] is taken only when the table has no such column.
    With the cell of q_read_write empty (NaN) and the other two indicators
    1, the quality index is NaN, where the mean with 0 in its place,
    (0 + 1 + 1) / 3, rounded to two decimals, is 0.67 (by either rule of
    rounding).  Without the column q_read_write the index is 0.67. *)
Theorem quality_index_nan :
  (exists s,
      dashboard_records
        (session_table VNaN VNaN VNaN
           [("q_read_write", nan); ("q_recognize_currency", 1%float);
            ("q_simple_math", 1%float)]) = Ok [s]
      /\ is_nan (Quality_Index s) = true)
  /\ float64_round ((0 + 1 + 1) / 3)%float 2 = 0.67%float
  /\ round ((0 + 1 + 1) / 3)%float 2 = 0.67%float
  /\ is_nan 0.67 = false
  /\ (exists s,
        dashboard_records
          (session_table VNaN VNaN VNaN
             [("q_recognize_currency", 1%float); ("q_simple_math", 1%float)])
        = Ok [s]
        /\ Quality_Index s = 0.67%float).
Proof.
  split; [eexists; split; vm_compute; reflexivity|].
  repeat split; try (vm_compute; reflexivity).
  eexists; split; vm_compute; reflexivity.
Qed.

(** ** The records of the dashboard *)

(** C10.  In every record of the dashboard the number of female
    beneficiaries is the number of beneficiaries. *)
Theorem female_beneficiaries_equal_count (df_master : DataFrame)
    (records : list Summary) :
  dashboard_records df_master = Ok records ->
  Forall (fun s => Female_Beneficiaries s = Beneficiary_Count_Actual s) records.
Proof.
  unfold dashboard_records.
  destruct (reshaper df_master) as [[att final]|e]; [|discriminate].
  cbn [mbind result_bind]. unfold aggregator.
  destruct (groupby_session final) as [groups|e]; [|discriminate].
  cbn [mbind result_bind]. intros H. apply mapM_Ok in H.
  induction H as [|[session_id g] s groups records Hs _ IH]; constructor; [|exact IH].
  destruct g as [|first_row rest]; [discriminate Hs|].
  now destruct (summarise_Ok _ _ _ _ _ Hs) as (? & ? & ? & _ & _ & _ & _ & _ & _ & _ & _ & ->).
Qed.

Lemma female_beneficiaries_equal_count_witness :
  exists s, dashboard_records end_to_end_table = Ok [s]
            /\ Female_Beneficiaries s = Beneficiary_Count_Actual s.
Proof.
  eexists. split; [vm_compute; reflexivity|].
  refine (Forall_inv (female_beneficiaries_equal_count end_to_end_table _ _)).
  vm_compute. reflexivity.
Defined.

(** ** The script *)

(** C9.  When no file exists at the path of the master file, the script
    prints that the file was not found and does nothing else: nothing is
    read or computed, no file is written, and the content at the output
    path is what it was. *)
Theorem master_file_absent (read_excel : string -> result DataFrame)
    (json_dumps : artifact -> string)
    (master_file_path output_json_path : string) (w : world) :
  files w !! master_file_path = None ->
  let w' := prepare_dashboard_data read_excel json_dumps
              master_file_path output_json_path w in
  printed w' = (printed w ++ [MasterNotFound master_file_path])%list
  /\ files w' = files w
  /\ files w' !! output_json_path = files w !! output_json_path.
Proof.
  intros H w'. subst w'. unfold prepare_dashboard_data. rewrite H.
  repeat split.
Qed.

Lemma master_file_absent_witness :
  files (prepare_dashboard_data (fun _ => Raise OtherError) (fun _ => "")
           "master.xlsx" "dashboard_data.json"
           {| files := {["dashboard_data.json" := "{}"]}; printed := [] |})
  !! "dashboard_data.json" = Some "{}".
Proof.
  refine (eq_trans (proj2 (proj2 (master_file_absent _ _ _ _ _ _))) _);
    reflexivity.
Defined.

(** When the master file is read and the pipeline raises nothing, the
    file written at the output path is the serialized records with the
    two targets. *)
Lemma prepare_dashboard_data_writes (read_excel : string -> result DataFrame)
    (json_dumps : artifact -> string)
    (master_file_path output_json_path workbook : string) (w : world)
    (df_master : DataFrame) (records : list Summary) :
  files w !! master_file_path = Some workbook ->
  read_excel workbook = Ok df_master ->
  dashboard_records df_master = Ok records ->
  files (prepare_dashboard_data read_excel json_dumps
           master_file_path output_json_path w)
  = <[output_json_path :=
        json_dumps {| dashboard_data := records;
                      metadata := (250000%Z, 256%float) |}]> (files w).
Proof.
  intros Hf Hr. unfold prepare_dashboard_data, dashboard_records.
  rewrite Hf, Hr.
  destruct (reshaper df_master) as [[att final]|e]; [|discriminate].
  cbn [mbind result_bind]. now intros ->.
Qed.

(** * Further properties *)

(** ** The long-format table *)

Lemma flat_map_if_singleton {A B : Type} (p : A -> bool) (f : A -> B) (l : list A) :
  flat_map (fun a => if p a then [f a] else []) l = map f (List.filter p l).
Proof.
  induction l as [|a l IH]; simpl; [reflexivity|].
  destruct (p a); simpl; now rewrite IH.
Qed.

Lemma long_format_list_length (df_day1 : DataFrame) :
  (length (long_format_list df_day1) <= 35 * length (rows df_day1))%nat.
Proof.
  unfold long_format_list. induction (rows df_day1) as [|row l IH]; simpl; [lia|].
  rewrite length_app, reshape_row_length.
  pose proof (filter_length_le (slot_present df_day1 row) (seq 1 35)) as H.
  rewrite length_seq in H. lia.
Qed.

(** The records of a registration row are those of its slots with an
    identifier, in the order of the slots, and a table of n rows gives at
    most 35 n records. *)
Theorem reshape_row_slots :
  (forall df_day1 row,
      reshape_row df_day1 row
      = map (beneficiary_data row)
          (List.filter (slot_present df_day1 row) (seq 1 35)))
  /\ (forall df_day1,
         (length (long_format_list df_day1) <= 35 * length (rows df_day1))%nat).
Proof.
  split; [|exact long_format_list_length].
  intros df_day1 row. apply flat_map_if_singleton.
Qed.

Lemma beneficiary_data_keys (row : series) (i : nat) :
  dom (text (beneficiary_data row i)) ∪ dom (num (beneficiary_data row i))
  = list_to_set session_columns.
Proof.
  unfold beneficiary_data, beneficiary_specific_prefixes, setitem, session_data.
  simpl. rewrite !dom_insert_L, !dom_empty_L. set_solver.
Qed.

(** A record holds the session-level cells of its row, the name, age and
    occupation cells of its slot (a missing one as it is), the four
    indicators with 0 for a column the table lacks, and no other key than
    the sixteen columns of the long-format table. *)
Theorem beneficiary_data_carries_fields (row : series) (i : nat) :
  (forall col,
      In col ["SubmissionDate"; "start"; "end"; "province_select";
              "district_select"; "lead_trainer_name"; "session_id";
              "training_location"] ->
      get (beneficiary_data row i) col = get row col)
  /\ (forall prefix,
         In prefix ["beneficiary_name"; "age"; "occupation"] ->
         get (beneficiary_data row i) prefix = get row (slot_col prefix i))
  /\ (forall col,
         In col ["q_read_write"; "q_recognize_currency"; "q_simple_math";
                 "q_handbooks_distributed"] ->
         num (beneficiary_data row i) !! col = Some (get_num row col 0))
  /\ dom (text (beneficiary_data row i)) ∪ dom (num (beneficiary_data row i))
     = list_to_set session_columns.
Proof.
  split; [exact (beneficiary_data_session_fields row i)|].
  split.
  { intros prefix H. apply beneficiary_data_slot_fields.
    unfold beneficiary_specific_prefixes. simpl in *. intuition. }
  split; [|apply beneficiary_data_keys].
  intros col H. rewrite beneficiary_data_num. unfold session_data. simpl.
  simpl in H. repeat destruct H as [<-|H];
    try (repeat (rewrite lookup_insert_ne by discriminate);
         now rewrite lookup_insert_eq).
  destruct H.
Qed.

Lemma beneficiary_data_carries_fields_witness :
  get (beneficiary_data (session_row (VStr "09:00:00") VNaN VNaN []) 1) "start"
  = VStr "09:00:00"
  /\ get (beneficiary_data (session_row VNaN VNaN VNaN []) 1) "occupation" = VNone
  /\ num (beneficiary_data (session_row VNaN VNaN VNaN []) 1) !! "q_simple_math"
     = Some 0%float.
Proof.
  split; [|split].
  - refine (eq_trans (proj1 (beneficiary_data_carries_fields _ 1) "start" _) _);
      [simpl; auto|reflexivity].
  - refine (eq_trans
              (proj1 (proj2 (beneficiary_data_carries_fields _ 1)) "occupation" _) _);
      [simpl; auto|reflexivity].
  - refine (eq_trans
              (proj1 (proj2 (proj2 (beneficiary_data_carries_fields _ 1)))
                 "q_simple_math" _) _);
      [simpl; auto|reflexivity].
Defined.

(** ** Grouping by session *)

Lemma key_lt_trans (s t u : string) : key_lt s t -> key_lt t u -> key_lt s u.
Proof.
  unfold key_lt. revert t u.
  induction s as [|c1 s IH]; intros [|c2 t] [|c3 u]; simpl; try easy.
  unfold Ascii.compare.
  destruct (N.compare_spec (N_of_ascii c1) (N_of_ascii c2)) as [E1|L1|G1];
    destruct (N.compare_spec (N_of_ascii c2) (N_of_ascii c3)) as [E2|L2|G2];
    destruct (N.compare_spec (N_of_ascii c1) (N_of_ascii c3)) as [E3|L3|G3];
    try easy; try lia.
  apply IH.
Qed.

Lemma key_lt_irrefl (s : string) : ~ key_lt s s.
Proof.
  unfold key_lt. induction s as [|c s IH]; simpl; [discriminate|].
  unfold Ascii.compare. now rewrite N.compare_refl.
Qed.

Lemma insert_key_In (k x : string) (l : list string) :
  In x (insert_key k l) <-> x = k \/ In x l.
Proof.
  induction l as [|y l IH]; simpl; [intuition|].
  destruct (String.compare k y) eqn:E; simpl.
  - apply String.compare_eq_iff in E as ->. intuition.
  - intuition.
  - rewrite IH. intuition.
Qed.

Lemma insert_key_ascending (k : string) (l : list string) :
  ascending l -> ascending (insert_key k l).
Proof.
  unfold ascending. induction 1 as [|y l Hl IH Hy]; simpl.
  - repeat constructor.
  - destruct (String.compare k y) eqn:E.
    + now constructor.
    + constructor; [now constructor|]. constructor; [exact E|].
      apply List.Forall_forall. intros z Hz. rewrite List.Forall_forall in Hy.
      apply (key_lt_trans k y z E). now apply Hy.
    + constructor; [exact IH|]. apply List.Forall_forall. intros z Hz.
      apply insert_key_In in Hz as [->|Hz].
      * unfold key_lt. rewrite String.compare_antisym, E. reflexivity.
      * rewrite List.Forall_forall in Hy. now apply Hy.
Qed.

Lemma group_keys_ascending (l : list series) : ascending (group_keys l).
Proof.
  induction l as [|r l IH]; simpl; [constructor|].
  destruct (group_key r); [now apply insert_key_ascending|exact IH].
Qed.

Lemma group_key_Some (r : series) (k : string) :
  group_key r = Some k <-> get r "session_id" = VStr k.
Proof.
  unfold group_key. destruct (get r "session_id"); split; congruence.
Qed.

Lemma group_keys_In (l : list series) (k : string) :
  In k (group_keys l) <-> exists r, In r l /\ get r "session_id" = VStr k.
Proof.
  induction l as [|r l IH]; simpl.
  - split; [easy|now intros (? & [] & _)].
  - destruct (group_key r) as [k'|] eqn:E.
    + rewrite insert_key_In, IH. apply group_key_Some in E. split.
      * intros [->|(r' & Hr' & Hk)]; eauto.
      * intros (r' & [<-|Hr'] & Hk); [left; congruence|eauto].
    + rewrite IH. split.
      * intros (r' & Hr' & Hk); eauto.
      * intros (r' & [<-|Hr'] & Hk); [|eauto].
        apply group_key_Some in Hk. congruence.
Qed.

Lemma ascending_NoDup (l : list string) : ascending l -> NoDup l.
Proof.
  induction 1 as [|y l Hl IH Hy]; constructor; [|exact IH].
  intros Hin. apply list_elem_of_In in Hin. rewrite List.Forall_forall in Hy.
  exact (key_lt_irrefl y (Hy y Hin)).
Qed.

Lemma records_of_In (k : string) (l : list series) (r : series) :
  In r (records_of k l) <-> In r l /\ get r "session_id" = VStr k.
Proof.
  unfold records_of. rewrite filter_In. unfold value_eqb.
  destruct (get r "session_id") as [| |t]; try (intuition congruence).
  destruct (String.eqb_spec t k); intuition congruence.
Qed.

Lemma summarise_Ok_fields (att : gmap string (gset string)) (session_id : string)
    (first_row : series) (rest : list series) (s : Summary) :
  summarise att session_id (first_row :: rest) = Ok s ->
  TrainingID s = session_id
  /\ Training_Date s = hd "" (split_space (str (get first_row "SubmissionDate")))
  /\ Province s = get first_row "province_select"
  /\ District s = get first_row "district_select"
  /\ ASPC_Name s = get first_row "lead_trainer_name"
  /\ Female_Occupations s
     = value_counts (map (fun r => get r "occupation") (first_row :: rest)).
Proof.
  unfold summarise.
  change (index (first_row :: rest) 0) with (Ok first_row).
  cbn [mbind result_bind].
  destruct (location first_row) as [[lat lon]|e]; [|discriminate].
  cbn [mbind result_bind].
  destruct (avg_training_time_hours first_row) as [hours|e]; [|discriminate].
  cbn [mbind result_bind]. intros [= <-]. repeat split; reflexivity.
Qed.

Lemma Forall2_map_left {A B C : Type} (P : B -> C -> Prop) (f : A -> B)
    (l : list A) (k : list C) :
  Forall2 P (map f l) k -> Forall2 (fun a c => P (f a) c) l k.
Proof.
  revert k. induction l as [|a l IH]; intros k H; inversion H; subst;
    constructor; auto.
Qed.

(** The summaries correspond, in order, to the keys of the table; the
    group of a key is never empty. *)
Lemma aggregator_Ok (att : gmap string (gset string)) (final : DataFrame)
    (records : list Summary) :
  aggregator att final = Ok records ->
  Forall2 (fun k s => exists first_row rest,
               records_of k (rows final) = first_row :: rest
               /\ summarise att k (first_row :: rest) = Ok s)
    (group_keys (rows final)) records.
Proof.
  unfold aggregator, groupby_session.
  destruct (getitem final "session_id") as [cells|e]; [|discriminate].
  cbn [mbind result_bind]. intros H. apply mapM_Ok in H.
  apply Forall2_map_left in H. eapply Forall2_impl; [exact H|].
  intros k s Hs. cbn beta iota in Hs. fold (records_of k (rows final)) in Hs.
  destruct (records_of k (rows final)) as [|first_row rest]; [discriminate Hs|].
  eauto.
Qed.

Lemma aggregator_TrainingID (att : gmap string (gset string)) (final : DataFrame)
    (records : list Summary) :
  aggregator att final = Ok records ->
  map TrainingID records = group_keys (rows final).
Proof.
  intros H. apply aggregator_Ok in H.
  induction H as [|k s ks records (first_row & rest & _ & Hs) _ IH]; simpl;
    [reflexivity|].
  apply summarise_Ok_fields in Hs as (-> & _). now rewrite IH.
Qed.

(** The aggregator gives one summary per distinct session identifier of
    the long-format table, in strictly ascending order of the identifiers
    (so no identifier comes twice); records without a session identifier
    belong to no summary. *)
Theorem aggregator_one_summary_per_session (att : gmap string (gset string))
    (final : DataFrame) (records : list Summary) :
  aggregator att final = Ok records ->
  ascending (map TrainingID records)
  /\ NoDup (map TrainingID records)
  /\ (forall k, In k (map TrainingID records)
                <-> exists r, In r (rows final) /\ get r "session_id" = VStr k).
Proof.
  intros H. rewrite (aggregator_TrainingID _ _ _ H).
  split; [apply group_keys_ascending|].
  split; [apply ascending_NoDup, group_keys_ascending|].
  intros k. apply group_keys_In.
Qed.

(** Names the result of the aggregator on the two tables the reshaper
    gives for [table]: [records], with the equation [Ha]. *)
Ltac run_aggregator table :=
  destruct (aggregator (day2_attendance (attendance_rows table))
              (df_final_database (long_format_list (registration_rows table))))
    as [records|e] eqn:Ha;
  [|vm_compute in Ha; discriminate Ha].

Lemma aggregator_one_summary_per_session_witness :
  exists att final records,
    reshaper end_to_end_table = Ok (att, final)
    /\ aggregator att final = Ok records
    /\ NoDup (map TrainingID records).
Proof.
  run_aggregator end_to_end_table.
  exists (day2_attendance (attendance_rows end_to_end_table)),
    (df_final_database (long_format_list (registration_rows end_to_end_table))),
    records.
  split; [reflexivity|]. split; [exact Ha|].
  exact (proj1 (proj2 (aggregator_one_summary_per_session _ _ records Ha))).
Defined.

(** The descriptive fields of a summary are those of the first record of
    its session in the order of the long-format table; the later records
    of the session are not consulted for them. *)
Theorem summary_fields_from_first_record (att : gmap string (gset string))
    (final : DataFrame) (records : list Summary) :
  aggregator att final = Ok records ->
  Forall (fun s => exists first_row rest,
              records_of (TrainingID s) (rows final) = first_row :: rest
              /\ Province s = get first_row "province_select"
              /\ District s = get first_row "district_select"
              /\ ASPC_Name s = get first_row "lead_trainer_name"
              /\ Training_Date s
                 = hd "" (split_space (str (get first_row "SubmissionDate"))))
    records.
Proof.
  intros H. apply aggregator_Ok in H.
  induction H as [|k s ks records (first_row & rest & Hg & Hs) _ IH];
    constructor; [|exact IH].
  apply summarise_Ok_fields in Hs as (-> & Hd & Hp & Hdi & Ha & _).
  exists first_row, rest. auto.
Qed.

Lemma summary_fields_from_first_record_witness :
  exists att final records,
    reshaper end_to_end_table = Ok (att, final)
    /\ aggregator att final = Ok records
    /\ Forall (fun s => exists first_row rest,
                   records_of (TrainingID s) (rows final) = first_row :: rest
                   /\ Province s = get first_row "province_select") records.
Proof.
  run_aggregator end_to_end_table.
  exists (day2_attendance (attendance_rows end_to_end_table)),
    (df_final_database (long_format_list (registration_rows end_to_end_table))),
    records.
  split; [reflexivity|]. split; [exact Ha|].
  eapply List.Forall_impl;
    [|exact (summary_fields_from_first_record _ _ records Ha)].
  intros s (first_row & rest & Hg & Hp & _). eauto.
Defined.

(** ** The pipeline as a whole *)

Lemma reshaper_Ok (df_master : DataFrame) (att : gmap string (gset string))
    (final : DataFrame) :
  reshaper df_master = Ok (att, final) ->
  existsb (String.eqb "main_menu") (columns df_master) = true
  /\ final = df_final_database (long_format_list (registration_rows df_master)).
Proof.
  unfold reshaper, select_menu, getitem.
  destruct (existsb (String.eqb "main_menu") (columns df_master));
    [|discriminate].
  cbn [mbind result_bind]. intros [= _ <-]. split; reflexivity.
Qed.

Lemma long_format_list_cnic_present (df_day1 : DataFrame) (r : series) :
  In r (long_format_list df_day1) -> notna (get r "beneficiary_cnic") = true.
Proof.
  unfold long_format_list. rewrite in_flat_map. intros (row & _ & Hr).
  now apply reshape_row_cnic_present in Hr.
Qed.

Lemma count_all_present (l : list series) :
  (forall r, In r l -> notna (get r "beneficiary_cnic") = true) ->
  count (map (fun r => get r "beneficiary_cnic") l) = Z.of_nat (length l).
Proof.
  unfold count. intros H. f_equal. induction l as [|r l IH]; simpl; [reflexivity|].
  rewrite (H r) by now left. simpl. f_equal. apply IH. intros r' Hr'.
  apply H. now right.
Qed.

(** In every summary the count of beneficiaries is the number of records
    of the long-format table that carry the session identifier of the
    summary, and it is at least 1. *)
Theorem beneficiary_count_is_group_size (df_master : DataFrame)
    (att : gmap string (gset string)) (final : DataFrame)
    (records : list Summary) :
  reshaper df_master = Ok (att, final) ->
  aggregator att final = Ok records ->
  Forall (fun s => Beneficiary_Count_Actual s
                   = Z.of_nat (length (records_of (TrainingID s) (rows final)))
                   /\ (1 <= Beneficiary_Count_Actual s)%Z) records.
Proof.
  intros Hr Ha. apply reshaper_Ok in Hr as [_ ->]. apply aggregator_Ok in Ha.
  simpl rows in *.
  induction Ha as [|k s ks records (first_row & rest & Hg & Hs) _ IH];
    constructor; [|exact IH].
  pose proof (summarise_Ok_fields _ _ _ _ _ Hs) as (-> & _).
  destruct (summarise_Ok _ _ _ _ _ Hs)
    as (lat & lon & hours & _ & _ & _ & _ & _ & _ & _ & -> & _).
  rewrite count_all_present.
  - rewrite Hg. simpl. split; [reflexivity|lia].
  - intros r Hr. rewrite <- Hg in Hr. apply records_of_In in Hr as [Hr _].
    now apply long_format_list_cnic_present in Hr.
Qed.

Lemma beneficiary_count_is_group_size_witness :
  exists att final records,
    reshaper end_to_end_table = Ok (att, final)
    /\ aggregator att final = Ok records
    /\ Forall (fun s => (1 <= Beneficiary_Count_Actual s)%Z) records.
Proof.
  run_aggregator end_to_end_table.
  exists (day2_attendance (attendance_rows end_to_end_table)),
    (df_final_database (long_format_list (registration_rows end_to_end_table))),
    records.
  split; [reflexivity|]. split; [exact Ha|].
  eapply List.Forall_impl;
    [|exact (beneficiary_count_is_group_size end_to_end_table _ _ records
               eq_refl Ha)].
  intros s [_ H]. exact H.
Defined.

Lemma single_key_count (k0 : string) (ks : list string) :
  NoDup ks -> In k0 ks ->
  list_sum (map (fun k => if String.eqb k0 k then 1 else 0)%nat ks) = 1%nat.
Proof.
  induction 1 as [|k ks Hk Hks IH]; simpl; [easy|].
  rewrite list_elem_of_In in Hk. intros [->|Hin].
  - rewrite String.eqb_refl. f_equal.
    clear IH Hks. induction ks as [|k' ks IH]; simpl; [reflexivity|].
    destruct (String.eqb_spec k0 k') as [->|_]; [exfalso; apply Hk; now left|].
    apply IH. intros H. apply Hk. now right.
  - destruct (String.eqb_spec k0 k) as [->|_]; [contradiction|]. now apply IH.
Qed.

Lemma no_key_count (v : value) (ks : list string) :
  notna v = false ->
  list_sum (map (fun k => if value_eqb v k then 1 else 0)%nat ks) = 0%nat.
Proof.
  intros H. induction ks as [|k ks IH]; simpl; [reflexivity|].
  destruct v; try discriminate; exact IH.
Qed.

Lemma list_sum_map_add {A : Type} (f g : A -> nat) (l : list A) :
  list_sum (map (fun a => f a + g a)%nat l)
  = (list_sum (map f l) + list_sum (map g l))%nat.
Proof. induction l as [|a l IH]; simpl; [reflexivity|]. rewrite IH. lia. Qed.

(** The groups of a list of keys without repetition that holds every key
    of the records split the records that have a key. *)
Lemma records_of_partition (ks : list string) (l : list series) :
  NoDup ks ->
  (forall r k, In r l -> get r "session_id" = VStr k -> In k ks) ->
  list_sum (map (fun k => length (records_of k l)) ks)
  = length (List.filter (fun r => notna (get r "session_id")) l).
Proof.
  intros Hks. induction l as [|r l IH]; intros Hall.
  - clear Hks Hall. simpl. induction ks; simpl; auto.
  - transitivity
      (list_sum (map (fun k => (if value_eqb (get r "session_id") k then 1 else 0)
                               + length (records_of k l))%nat ks)).
    { f_equal. apply map_ext. intros k. unfold records_of. simpl.
      now destruct (value_eqb (get r "session_id") k). }
    rewrite list_sum_map_add, IH by (intros r' k Hr'; apply Hall; now right).
    simpl. destruct (get r "session_id") as [| |k0] eqn:E; simpl.
    + now rewrite (no_key_count VNone).
    + now rewrite (no_key_count VNaN).
    + rewrite (single_key_count k0 ks Hks); [reflexivity|].
      apply (Hall r); [now left|exact E].
Qed.

(** The counts of the summaries add up to the number of records of the
    long-format table that have a session identifier: every such record
    is counted once, and a record without one is counted nowhere. *)
Theorem beneficiary_counts_add_up (df_master : DataFrame)
    (att : gmap string (gset string)) (final : DataFrame)
    (records : list Summary) :
  reshaper df_master = Ok (att, final) ->
  aggregator att final = Ok records ->
  total (map Beneficiary_Count_Actual records)
  = Z.of_nat (length (List.filter (fun r => notna (get r "session_id"))
                        (rows final))).
Proof.
  intros Hr Ha.
  rewrite <- (records_of_partition (group_keys (rows final)) (rows final)).
  - pose proof (beneficiary_count_is_group_size _ _ _ _ Hr Ha) as Hc.
    rewrite <- (aggregator_TrainingID _ _ _ Ha). clear Hr Ha.
    induction Hc as [|s records [Hs _] _ IH]; simpl; [reflexivity|].
    rewrite IH, Hs. lia.
  - apply ascending_NoDup, group_keys_ascending.
  - intros r k Hin Hk. apply group_keys_In. eauto.
Qed.

Lemma beneficiary_counts_add_up_witness :
  exists att final records,
    reshaper end_to_end_table = Ok (att, final)
    /\ aggregator att final = Ok records
    /\ total (map Beneficiary_Count_Actual records)
       = Z.of_nat (length (List.filter (fun r => notna (get r "session_id"))
                             (rows final))).
Proof.
  run_aggregator end_to_end_table.
  exists (day2_attendance (attendance_rows end_to_end_table)),
    (df_final_database (long_format_list (registration_rows end_to_end_table))),
    records.
  split; [reflexivity|]. split; [exact Ha|].
  exact (beneficiary_counts_add_up end_to_end_table _ _ records eq_refl Ha).
Defined.

Lemma mapM_total {A B : Type} (f : A -> result B) (l : list A) :
  Forall (fun a => exists b, f a = Ok b) l -> exists k, mapM f l = Ok k.
Proof.
  induction 1 as [|a l [b Hb] _ [k Hk]]; simpl; [now eexists|].
  rewrite Hb. cbn [mbind result_bind]. rewrite Hk. now eexists.
Qed.

Lemma aggregator_total (att : gmap string (gset string)) (l : list series) :
  l <> [] -> exists records, aggregator att (df_final_database l) = Ok records.
Proof.
  intros Hl. unfold aggregator, groupby_session, getitem.
  assert (Hc : existsb (String.eqb "session_id") (columns (df_final_database l))
               = true)
    by (destruct l; [contradiction|reflexivity]).
  rewrite Hc. cbn [mbind result_bind].
  change (rows (df_final_database l)) with l.
  apply mapM_total. apply List.Forall_forall. intros [k g] Hin.
  apply in_map_iff in Hin as (k' & [= <- <-] & Hk).
  apply group_keys_In in Hk as (r & Hr & Hk).
  fold (records_of k' l).
  destruct (records_of k' l) as [|first_row rest] eqn:E.
  - exfalso. assert (H : In r (records_of k' l))
      by (apply records_of_In; auto).
    now rewrite E in H.
  - apply summarise_total.
Qed.

(** The pipeline raises [KeyError] when the master table has no
    [main_menu] column and when no registration row has an identifier in
    any of its slots (the long-format table is then empty and has no
    [session_id] column), and it raises [KeyError] in these two cases
    only. *)
Theorem dashboard_records_key_error (df_master : DataFrame) :
  (existsb (String.eqb "main_menu") (columns df_master) = false ->
   dashboard_records df_master = Raise KeyError)
  /\ (existsb (String.eqb "main_menu") (columns df_master) = true ->
      long_format_list (registration_rows df_master) = [] ->
      dashboard_records df_master = Raise KeyError)
  /\ (dashboard_records df_master = Raise KeyError ->
      existsb (String.eqb "main_menu") (columns df_master) = false
      \/ long_format_list (registration_rows df_master) = []).
Proof.
  unfold dashboard_records, reshaper, select_menu, getitem.
  destruct (existsb (String.eqb "main_menu") (columns df_master)).
  - split; [discriminate|]. cbn [mbind result_bind].
    fold (registration_rows df_master). split.
    + intros _ ->. reflexivity.
    + intros H. right.
      destruct (long_format_list (registration_rows df_master)) as [|r l] eqn:E;
        [reflexivity|].
      destruct (aggregator_total (day2_attendance (attendance_rows df_master))
                  (r :: l) ltac:(discriminate)) as [records Hr].
      fold (attendance_rows df_master) in H. rewrite Hr in H. discriminate H.
  - split; [reflexivity|]. split; [discriminate|]. intros _. now left.
Qed.

Lemma dashboard_records_key_error_witness :
  dashboard_records {| columns := ["session_id"]; rows := [] |} = Raise KeyError
  /\ dashboard_records two_attendance_rows = Raise KeyError
  /\ (existsb (String.eqb "main_menu") (columns two_attendance_rows) = false
      \/ long_format_list (registration_rows two_attendance_rows) = []).
Proof.
  split; [|split].
  - apply (proj1 (dashboard_records_key_error _)). reflexivity.
  - apply (proj1 (proj2 (dashboard_records_key_error _))); reflexivity.
  - apply (proj2 (proj2 (dashboard_records_key_error _))). reflexivity.
Defined.

Lemma filter_filter_implied {A : Type} (p q : A -> bool) (l : list A) :
  (forall a, p a = true -> q a = true) ->
  List.filter p (List.filter q l) = List.filter p l.
Proof.
  intros H. induction l as [|a l IH]; simpl; [reflexivity|].
  destruct (q a) eqn:Eq; simpl.
  - destruct (p a); now rewrite IH.
  - destruct (p a) eqn:Ep; [|exact IH]. apply H in Ep. congruence.
Qed.

(** Rows whose [main_menu] is neither "day1" nor "day2" play no part:
    removing them from the master table leaves the records unchanged. *)
Theorem dashboard_records_other_rows (cols : list string) (l : list series) :
  dashboard_records
    {| columns := cols;
       rows := List.filter (fun r => value_eqb (get r "main_menu") "day1"
                                     || value_eqb (get r "main_menu") "day2") l |}
  = dashboard_records {| columns := cols; rows := l |}.
Proof.
  unfold dashboard_records, reshaper, select_menu, getitem. cbn [columns rows].
  destruct (existsb (String.eqb "main_menu") cols); [|reflexivity].
  cbn [mbind result_bind].
  rewrite !filter_filter_implied; [reflexivity| |];
    intros r ->; auto using orb_true_r.
Qed.

(** ** Occupations and the date of a summary *)

Lemma value_counts_fold (cells : list value) (o : string) (acc : gmap string nat) :
  fold_left (fun acc v => match v with
                          | VStr s => <[s := S (default 0%nat (acc !! s))]> acc
                          | VNone | VNaN => acc
                          end) cells acc !! o
  = match acc !! o with
    | Some n => Some (n + occurrences o cells)%nat
    | None => if (occurrences o cells =? 0)%nat then None
              else Some (occurrences o cells)
    end.
Proof.
  revert acc. unfold occurrences.
  induction cells as [|v cells IH]; intros acc; simpl.
  - destruct (acc !! o); [f_equal; lia|reflexivity].
  - destruct v as [| |s]; simpl; try apply IH.
    rewrite IH. destruct (String.eqb_spec s o) as [->|Hne]; simpl.
    + rewrite lookup_insert_eq. destruct (acc !! o); simpl; f_equal; lia.
    + now rewrite lookup_insert_ne.
Qed.

(** The occupations of a summary: each occupation that occurs in the
    group is a key, with the number of records that hold it, and there is
    no other key; a missing occupation is not counted. *)
Theorem female_occupations_counts (att : gmap string (gset string))
    (session_id : string) (first_row : series) (rest : list series) (o : string) :
  exists s,
    summarise att session_id (first_row :: rest) = Ok s
    /\ Female_Occupations s !! o
       = if (occurrences o (map (fun r => get r "occupation") (first_row :: rest))
             =? 0)%nat
         then None
         else Some (occurrences o
                      (map (fun r => get r "occupation") (first_row :: rest))).
Proof.
  destruct (summarise_total att session_id first_row rest) as [s Hs].
  exists s. split; [exact Hs|].
  apply summarise_Ok_fields in Hs as (_ & _ & _ & _ & _ & ->).
  unfold value_counts. rewrite value_counts_fold. now rewrite lookup_empty.
Qed.

Lemma split_space_hd (s : string) :
  exists tail,
    s = hd "" (split_space s) +:+ tail
    /\ (tail = "" \/ exists t, tail = String " " t)
    /\ no_space (hd "" (split_space s)).
Proof.
  unfold no_space. induction s as [|c s (tail & Hs & Ht & Hn)]; simpl.
  - exists "". repeat split; [now left|constructor].
  - destruct (Ascii.eqb_spec c " ") as [->|Hc]; simpl.
    + exists (String " " s). repeat split; [right; eauto|constructor].
    + destruct (split_space s) as [|t ts]; simpl in *.
      * exists tail. rewrite append_cons, <- Hs. repeat split; auto.
      * exists tail. rewrite append_cons, <- Hs. repeat split; auto.
Qed.

(** The date of a summary is the text of the submission timestamp up to
    its first space, or the whole of it when it has none. *)
Theorem training_date_before_space (att : gmap string (gset string))
    (session_id : string) (first_row : series) (rest : list series) :
  exists s tail,
    summarise att session_id (first_row :: rest) = Ok s
    /\ str (get first_row "SubmissionDate") = Training_Date s +:+ tail
    /\ (tail = "" \/ exists t, tail = String " " t)
    /\ no_space (Training_Date s).
Proof.
  destruct (summarise_total att session_id first_row rest) as [s Hs].
  destruct (split_space_hd (str (get first_row "SubmissionDate")))
    as (tail & H1 & H2 & H3).
  exists s, tail. split; [exact Hs|].
  apply summarise_Ok_fields in Hs as (_ & -> & _). auto.
Qed.

(** ** Stray spaces in a location *)

Lemma split_space_nonempty (s : string) : split_space s <> [].
Proof.
  destruct s as [|c s]; simpl; [discriminate|].
  destruct (Ascii.eqb c " "); [discriminate|].
  destruct (split_space s); discriminate.
Qed.

Lemma split_space_app (a t : string) :
  no_space a -> split_space (a +:+ String " " t) = a :: split_space t.
Proof.
  unfold no_space. induction a as [|c a IH]; simpl; intros H.
  - reflexivity.
  - inversion H as [|? ? Hc Ha]; subst.
    destruct (Ascii.eqb_spec c " ") as [->|_]; [contradiction|].
    now rewrite (IH Ha).
Qed.

(** The pieces of a location are cut at single spaces, so a stray space
    unsets both coordinates: a space in front of the first number, a
    second space between the two numbers, and a space behind a single
    number all leave latitude and longitude unset. *)
Theorem location_stray_space (first_row : series) :
  (forall t, str (get first_row "training_location") = String " " t ->
             location first_row = Ok (None, None))
  /\ (forall a t, no_space a ->
                  str (get first_row "training_location")
                  = a +:+ String " " (String " " t) ->
                  location first_row = Ok (None, None))
  /\ (forall a, no_space a ->
                str (get first_row "training_location") = a +:+ " " ->
                location first_row = Ok (None, None)).
Proof.
  split; [|split].
  - intros t E. destruct (split_space t) as [|c1 rest] eqn:Et;
      [now apply split_space_nonempty in Et|].
    apply (location_bad_token first_row "" c1 rest).
    + rewrite E. simpl. now rewrite Et.
    + now left.
  - intros a t Ha E. destruct (split_space t) as [|c2 rest] eqn:Et;
      [now apply split_space_nonempty in Et|].
    apply (location_bad_token first_row a "" (c2 :: rest)).
    + rewrite E, (split_space_app _ _ Ha). simpl. now rewrite Et.
    + now right.
  - intros a Ha E. apply (location_bad_token first_row a "" []).
    + now rewrite E, (split_space_app _ _ Ha).
    + now right.
Qed.

Lemma location_stray_space_witness :
  location (session_row VNaN VNaN (VStr " 33.6 73.0") []) = Ok (None, None)
  /\ location (session_row VNaN VNaN (VStr "33.6  73.0") []) = Ok (None, None)
  /\ location (session_row VNaN VNaN (VStr "33.6 ") []) = Ok (None, None).
Proof.
  assert (Hn : no_space "33.6") by (repeat constructor; discriminate).
  split; [|split].
  - now apply (proj1 (location_stray_space _) "33.6 73.0").
  - now apply (proj1 (proj2 (location_stray_space _)) "33.6" "73.0").
  - now apply (proj2 (proj2 (location_stray_space _)) "33.6").
Defined.

(** ** The entries of the attendance index *)

Lemma re_sub_non_digits_all_digits (s : string) : all_digits (re_sub_non_digits s).
Proof.
  unfold all_digits. induction s as [|c s IH]; simpl; [constructor|].
  destruct (is_digit c) eqn:E; simpl; [now constructor|exact IH].
Qed.

(** A session has an entry in the attendance index exactly when some
    attendance row with both fields names it, and every identifier of an
    entry is a string of decimal digits (the empty string included). *)
Theorem attendance_index_entries (df_day2 : DataFrame) (session_id : string) :
  (is_Some (day2_attendance df_day2 !! session_id)
   <-> exists row, In row (rows df_day2)
                   /\ attendance_row_of session_id row = true)
  /\ (forall x, x ∈ default ∅ (day2_attendance df_day2 !! session_id) ->
                all_digits x).
Proof.
  rewrite day2_attendance_lookup. unfold last_attendance_row. split.
  - rewrite fmap_is_Some. split.
    + intros [row Hrow]. apply find_some in Hrow as [Hin Hp].
      exists row. split; [now apply in_rev|exact Hp].
    + intros (row & Hin & Hp).
      destruct (find (attendance_row_of session_id) (rev (rows df_day2)))
        as [row'|] eqn:E; [eauto|].
      apply in_rev in Hin. apply (find_none _ _ E row) in Hin. congruence.
  - intros x. destruct (find _ _) as [row|]; simpl; [|set_solver].
    intros Hx. apply cnic_list_elem in Hx as (c & _ & _ & ->).
    apply re_sub_non_digits_all_digits.
Qed.

Lemma attendance_index_entries_witness :
  all_digits "99999".
Proof.
  apply (proj2 (attendance_index_entries
                  {| columns := master_columns;
                     rows := [day2_row "S1" "12345 99999"] |} "S1")).
  apply cnic_list_elem. exists "99999".
  split; [right; now left|]. split; [discriminate|reflexivity].
Defined.

(** ** The script: what it writes and what it leaves alone *)

Section ScriptProperties.
Variable read_excel : string -> result DataFrame.
Variable json_dumps : artifact -> string.
Variables master_file_path output_json_path : string.
Variable w : world.

Let w' :=
  prepare_dashboard_data read_excel json_dumps master_file_path output_json_path w.

(** No path other than the output path is ever written, nothing is
    deleted, and what was printed before stays in front of what the run
    prints. *)
Theorem script_writes_output_path_only :
  (forall path, path <> output_json_path -> files w' !! path = files w !! path)
  /\ (forall path, is_Some (files w !! path) -> is_Some (files w' !! path))
  /\ exists msgs, printed w' = (printed w ++ msgs)%list /\ msgs <> [].
Proof.
  subst w'. unfold prepare_dashboard_data.
  assert (Hprint : forall m v, files (print m v) = files v) by reflexivity.
  assert (Hlog : forall m v, printed (print m v) = (printed v ++ [m])%list)
    by reflexivity.
  destruct (files w !! master_file_path) as [workbook|].
  2:{ repeat split; auto. eexists. split; [reflexivity|discriminate]. }
  destruct (read_excel workbook) as [df_master|e].
  2:{ repeat split; auto. eexists.
      split; [rewrite !Hlog, <- !app_assoc; reflexivity|discriminate]. }
  destruct (reshaper df_master) as [[att final]|e].
  2:{ repeat split; auto. eexists.
      split; [rewrite !Hlog, <- !app_assoc; reflexivity|discriminate]. }
  destruct (aggregator att final) as [records|e].
  2:{ repeat split; auto. eexists.
      split; [rewrite !Hlog, <- !app_assoc; reflexivity|discriminate]. }
  split; [|split].
  - intros path Hp. rewrite Hprint. unfold write_file. cbn [files].
    rewrite lookup_insert_ne by congruence. reflexivity.
  - intros path Hs. rewrite Hprint. unfold write_file. cbn [files].
    destruct (decide (output_json_path = path)) as [->|Hne].
    + rewrite lookup_insert_eq. eauto.
    + now rewrite lookup_insert_ne.
  - exists [Reading master_file_path; Created (length (rows final));
            Saved output_json_path].
    split; [|discriminate]. unfold print, write_file; simpl.
    now rewrite <- !app_assoc.
Qed.

(** When the reader or the pipeline raises, the error is printed and no
    file is written. *)
Theorem script_error_writes_nothing (workbook : string) (e : exn) :
  files w !! master_file_path = Some workbook ->
  read_excel workbook = Raise e
  \/ (exists df_master, read_excel workbook = Ok df_master
                        /\ dashboard_records df_master = Raise e) ->
  files w' = files w
  /\ exists msgs,
       printed w' = (printed w ++ Reading master_file_path :: msgs
                                  ++ [ErrorOccurred e])%list.
Proof.
  intros Hf H. subst w'. unfold prepare_dashboard_data. rewrite Hf.
  destruct H as [->|(df_master & -> & H)].
  - split; [reflexivity|]. exists []. unfold print; simpl.
    now rewrite <- app_assoc.
  - unfold dashboard_records in H.
    destruct (reshaper df_master) as [[att final]|e'].
    + cbn [mbind result_bind] in H. rewrite H. split; [reflexivity|].
      exists [Created (length (rows final))]. unfold print; simpl.
      now rewrite <- !app_assoc.
    + injection H as ->. split; [reflexivity|]. exists []. unfold print; simpl.
      now rewrite <- app_assoc.
Qed.

(** When the master file is read and the pipeline returns its records,
    the run prints three lines and writes, at the output path, the
    serialized object that holds the records and the two targets, 250000
    and 256.0. *)
Theorem script_success (workbook : string) (df_master : DataFrame)
    (records : list Summary) :
  files w !! master_file_path = Some workbook ->
  read_excel workbook = Ok df_master ->
  dashboard_records df_master = Ok records ->
  files w'
  = <[output_json_path :=
        json_dumps {| dashboard_data := records;
                      metadata := (250000%Z, 256%float) |}]> (files w)
  /\ printed w'
     = (printed w
        ++ [Reading master_file_path;
            Created (length (long_format_list (registration_rows df_master)));
            Saved output_json_path])%list.
Proof.
  intros Hf Hr H. subst w'. unfold prepare_dashboard_data. rewrite Hf, Hr.
  unfold dashboard_records in H.
  destruct (reshaper df_master) as [[att final]|e'] eqn:E; [|discriminate].
  cbn [mbind result_bind] in H. rewrite H.
  apply reshaper_Ok in E as [_ ->]. split; [reflexivity|].
  unfold print, write_file; simpl. now rewrite <- !app_assoc.
Qed.
End ScriptProperties.

Lemma script_writes_output_path_only_witness :
  files (prepare_dashboard_data (fun _ => Ok end_to_end_table) (fun _ => "{}")
           "master.xlsx" "dashboard_data.json"
           {| files := {["master.xlsx" := "workbook"]}; printed := [] |})
  !! "master.xlsx" = Some "workbook".
Proof.
  refine (eq_trans
            (proj1 (script_writes_output_path_only _ _ _ _ _) "master.xlsx" _) _);
    [discriminate|reflexivity].
Defined.

Lemma script_error_writes_nothing_witness :
  files (prepare_dashboard_data (fun _ => Ok two_attendance_rows) (fun _ => "{}")
           "master.xlsx" "dashboard_data.json"
           {| files := {["master.xlsx" := "workbook"]}; printed := [] |})
  = {["master.xlsx" := "workbook"]}.
Proof.
  refine (proj1 (script_error_writes_nothing (fun _ => Ok two_attendance_rows) _
                   _ _ _ "workbook" KeyError _ _)).
  - reflexivity.
  - right. exists two_attendance_rows. split; reflexivity.
Defined.

Lemma script_success_witness :
  exists records,
    dashboard_records end_to_end_table = Ok records
    /\ printed (prepare_dashboard_data (fun _ => Ok end_to_end_table)
                  (fun _ => "{}") "master.xlsx" "dashboard_data.json"
                  {| files := {["master.xlsx" := "workbook"]}; printed := [] |})
       = [Reading "master.xlsx";
          Created (length (long_format_list (registration_rows end_to_end_table)));
          Saved "dashboard_data.json"].
Proof.
  destruct (dashboard_records end_to_end_table) as [records|e] eqn:H;
    [|vm_compute in H; discriminate H].
  exists records. split; [reflexivity|].
  exact (proj2 (script_success (fun _ => Ok end_to_end_table) (fun _ => "{}")
                  "master.xlsx" "dashboard_data.json"
                  {| files := {["master.xlsx" := "workbook"]}; printed := [] |}
                  "workbook" end_to_end_table records eq_refl eq_refl H)).
Defined.

Lemma re_search_hms_leftmost_witness : hms_prefix "x10:00:00" = false.
Proof.
  pose proof (re_search_hms_leftmost "x10:00:00") as H. cbn in H.
  destruct H as (pre & post & E & _ & _ & Hleft).
  apply (Hleft "" "x10:00:00"); [reflexivity|].
  destruct pre; [discriminate E|simpl; lia].
Defined.
